(** * ms-go-payments: the payment lifecycle engine

    A shallow embedding of the [service] package of ms-go-payments
    (CreatePayment, CancelPayment, HandleProviderCallback, the three batch
    workers and the outbound dispatcher), of the entities it manipulates and
    of the in-memory repositories of its unit tests, followed by the
    properties of the lifecycle engine.

    Conventions.
    - Go [string]s are byte strings: Rocq [string]s, one [ascii] per byte.
    - [int32] / [int64] / [uint64] values are [Z]; the only arithmetic the
      service performs on them ([CallbackDeliveryAttempts++]) is written with
      its two's-complement wrap-around.
    - [time.Time] is a [Z] (nanoseconds since the epoch, UTC) and
      [time.Duration] a [Z] (nanoseconds); a nil pointer is [None].
    - The service is written against interfaces (repositories, provider,
      HTTP client).  The embedding keeps them abstract: operations are state
      transformers over an arbitrary world [W] and record every collaborator
      call they make in a trace. *)

From Stdlib Require Import ZArith List String Ascii Bool Lia.
From Stdlib Require Import DecimalString.
Import ListNotations.
Local Open Scope string_scope.
Local Open Scope Z_scope.

Set Implicit Arguments.

(* ===================================================================== *)
(** * Package [strings] (Go standard library, as far as the service uses it) *)
(* ===================================================================== *)

Module strings.

Definition bytes (l : list N) : list ascii := map ascii_of_N l.

(** The [asciiSpace] table of package [strings]. *)
Definition asciiSpace (c : ascii) : bool :=
  match N_of_ascii c with
  | 9%N | 10%N | 11%N | 12%N | 13%N | 32%N => true
  | _ => false
  end.

(** UTF-8 encodings of the non-ASCII runes for which [unicode.IsSpace]
    holds: U+0085, U+00A0, U+1680, U+2000..U+200A, U+2028, U+2029,
    U+202F, U+205F, U+3000. *)
Definition unicodeSpaces : list (list ascii) :=
  map bytes
    [ [194; 133]; [194; 160]; [225; 154; 128];
      [226; 128; 128]; [226; 128; 129]; [226; 128; 130]; [226; 128; 131];
      [226; 128; 132]; [226; 128; 133]; [226; 128; 134]; [226; 128; 135];
      [226; 128; 136]; [226; 128; 137]; [226; 128; 138];
      [226; 128; 168]; [226; 128; 169]; [226; 128; 175];
      [226; 129; 159]; [227; 128; 128] ]%N.

Definition ascii_eqb (a b : ascii) : bool := (N_of_ascii a =? N_of_ascii b)%N.

Fixpoint hasPrefix (p l : list ascii) : bool :=
  match p, l with
  | [], _ => true
  | _ :: _, [] => false
  | a :: p', b :: l' => ascii_eqb a b && hasPrefix p' l'
  end.

(** Width in bytes of the white-space rune that starts [l]; 0 when [l]
    does not start with one.  [encs] lists the multi-byte encodings. *)
Definition spaceWidth (encs : list (list ascii)) (l : list ascii) : nat :=
  match l with
  | [] => 0%nat
  | c :: _ =>
      if asciiSpace c then 1%nat
      else match find (fun e => hasPrefix e l) encs with
           | Some e => List.length e
           | None => 0%nat
           end
  end.

Fixpoint trimLeftFuel (encs : list (list ascii)) (fuel : nat) (l : list ascii)
  : list ascii :=
  match fuel with
  | O => l
  | S fuel' =>
      match spaceWidth encs l with
      | O => l
      | w => trimLeftFuel encs fuel' (skipn w l)
      end
  end.

Definition trimLeft (l : list ascii) : list ascii :=
  trimLeftFuel unicodeSpaces (List.length l) l.

(** Trailing white space: a rune is decoded backwards exactly when its
    encoding is a suffix, so the right trim is the left trim of the
    reversed bytes against the reversed encodings. *)
Definition trimRight (l : list ascii) : list ascii :=
  rev (trimLeftFuel (map (@rev ascii) unicodeSpaces) (List.length l) (rev l)).

(** [strings.TrimSpace]. *)
Definition TrimSpace (s : string) : string :=
  string_of_list_ascii (trimRight (trimLeft (list_ascii_of_string s))).

Definition isASCII (s : string) : bool :=
  forallb (fun c => (N_of_ascii c <? 128)%N) (list_ascii_of_string s).

Definition lowerByte (c : ascii) : ascii :=
  let n := N_of_ascii c in
  if ((65 <=? n) && (n <=? 90))%N then ascii_of_N (n + 32) else c.

Definition upperByte (c : ascii) : ascii :=
  let n := N_of_ascii c in
  if ((97 <=? n) && (n <=? 122))%N then ascii_of_N (n - 32) else c.

Definition mapBytes (f : ascii -> ascii) (s : string) : string :=
  string_of_list_ascii (map f (list_ascii_of_string s)).

Section CaseMapping.
(** [strings.Map(unicode.ToLower, s)] and [strings.Map(unicode.ToUpper, s)]:
    the rune-wise path taken for strings with a non-ASCII byte.  The
    Unicode tables belong to the Go runtime and stay abstract. *)
Variables unicodeLower unicodeUpper : string -> string.

(** [strings.ToLower]. *)
Definition ToLower (s : string) : string :=
  if isASCII s then mapBytes lowerByte s else unicodeLower s.

(** [strings.ToUpper]. *)
Definition ToUpper (s : string) : string :=
  if isASCII s then mapBytes upperByte s else unicodeUpper s.
End CaseMapping.

(** [strings.Contains]. *)
Definition Contains (s substr : string) : bool :=
  match index 0 substr s with
  | Some _ => true
  | None => false
  end.

(** [len(s)]. *)
Definition len (s : string) : Z := Z.of_nat (String.length s).

(** [strconv.Itoa] / the [%d] verb of [fmt]. *)
Definition Itoa (z : Z) : string := NilZero.string_of_int (Z.to_int z).

End strings.

(* ===================================================================== *)
(** * Errors *)
(* ===================================================================== *)

(** The sentinel errors ([errors.New] values) of the packages [service],
    [repository] and [provider].  Sentinels of different packages are
    different values even when their messages coincide. *)
Inductive sentinel : Type :=
| ErrInvalidRequest
| ErrPaymentNotFound
| ErrPaymentAlreadyExists
| ErrInvalidStatus
| ErrProviderUnsupported
| ErrInvalidProvider
| ErrCallbackRejected
| repository_ErrPaymentNotFound
| repository_ErrPaymentAlreadyExists
| provider_ErrProviderNotSupported.

(** A Go [error] value: a sentinel, an error wrapping another one
    ([fmt.Errorf] with the verb [%w]), or any other error with its message. *)
Inductive error : Type :=
| Sentinel (s : sentinel)
| Wrapped (msg : string) (inner : error)
| Opaque (msg : string).

Coercion Sentinel : sentinel >-> error.

Definition sentinel_message (s : sentinel) : string :=
  match s with
  | ErrInvalidRequest => "invalid request"
  | ErrPaymentNotFound => "payment not found"
  | ErrPaymentAlreadyExists => "payment already exists"
  | ErrInvalidStatus => "invalid status"
  | ErrProviderUnsupported => "provider is not supported"
  | ErrInvalidProvider => "invalid provider"
  | ErrCallbackRejected => "callback rejected"
  | repository_ErrPaymentNotFound => "payment not found"
  | repository_ErrPaymentAlreadyExists => "payment already exists"
  | provider_ErrProviderNotSupported => "provider is not supported"
  end.

Definition sentinel_eqb (a b : sentinel) : bool :=
  match a, b with
  | ErrInvalidRequest, ErrInvalidRequest
  | ErrPaymentNotFound, ErrPaymentNotFound
  | ErrPaymentAlreadyExists, ErrPaymentAlreadyExists
  | ErrInvalidStatus, ErrInvalidStatus
  | ErrProviderUnsupported, ErrProviderUnsupported
  | ErrInvalidProvider, ErrInvalidProvider
  | ErrCallbackRejected, ErrCallbackRejected
  | repository_ErrPaymentNotFound, repository_ErrPaymentNotFound
  | repository_ErrPaymentAlreadyExists, repository_ErrPaymentAlreadyExists
  | provider_ErrProviderNotSupported, provider_ErrProviderNotSupported => true
  | _, _ => false
  end.

(** [err.Error()]. *)
Definition Error (e : error) : string :=
  match e with
  | Sentinel s => sentinel_message s
  | Wrapped msg _ => msg
  | Opaque msg => msg
  end.

(** [errors.Is(err, target)] for a sentinel target: walks the wrap chain. *)
Fixpoint errors_Is (e : error) (target : sentinel) : bool :=
  match e with
  | Sentinel s => sentinel_eqb s target
  | Wrapped _ inner => errors_Is inner target
  | Opaque _ => false
  end.

(** [fmt.Errorf("%w" ++ suffix, inner)]. *)
Definition fmt_Errorf_w (inner : error) (suffix : string) : error :=
  Wrapped (Error inner ++ suffix) inner.

(** A Go result pair [(value, error)]. *)
Inductive result (A : Type) : Type :=
| Ok (a : A)
| Err (e : error).
Arguments Ok {A} a.
Arguments Err {A} e.

(* ===================================================================== *)
(** * Package [types]: enumerations and request messages *)
(* ===================================================================== *)

(** Modelled from the spec: the generated package [types] is not among the
    sources; the status codes are those of the data model (CREATED=1,
    PENDING=2, PROCESSING=3, PAID=10, FAILED=20, CANCELED=30, EXPIRED=40). *)
Definition PaymentStatus_CREATED : Z := 1.
Definition PaymentStatus_PENDING : Z := 2.
Definition PaymentStatus_PROCESSING : Z := 3.
Definition PaymentStatus_PAID : Z := 10.
Definition PaymentStatus_FAILED : Z := 20.
Definition PaymentStatus_CANCELED : Z := 30.
Definition PaymentStatus_EXPIRED : Z := 40.

(** Modelled from the spec: provider codes of the generated package [types];
    0 is the unspecified provider and Stripe, the single supported provider,
    is the code that the route tag "1" names. *)
Definition ProviderType_UNSPECIFIED : Z := 0.
Definition ProviderType_STRIPE : Z := 1.

Module CreatePaymentRequest.
Record t : Type := mk {
  RequestId : string;
  CallerService : string;
  ResourceType : string;
  ResourceId : string;
  CustomerRef : string;
  AmountCents : Z;
  Currency : string;
  PaymentMethod : Z;
  PaymentType : Z;
  Provider : Z;
  RecurringInterval : string;
  RecurringIntervalCount : Z;
  StatusCallbackUrl : string;
  SuccessUrl : string;
  CancelUrl : string;
  Metadata : list (string * string)
}.
End CreatePaymentRequest.

Module CancelPaymentRequest.
Record t : Type := mk {
  Id : Z;
  Reason : string
}.
End CancelPaymentRequest.

Module HandleProviderCallbackRequest.
Record t : Type := mk {
  RequestId : string;
  Provider : string;
  CallbackHash : string;
  Signature : string;
  Payload : string
}.
End HandleProviderCallbackRequest.

(* ===================================================================== *)
(** * Package [entity] *)
(* ===================================================================== *)

Definition CallbackDeliveryNone : Z := 0.
Definition CallbackDeliveryPending : Z := 1.
Definition CallbackDeliverySuccess : Z := 10.
Definition CallbackDeliveryFailed : Z := 20.

Module Payment.
Record t : Type := mk {
  ID : Z;
  RequestID : string;
  CallerService : string;
  ResourceType : string;
  ResourceID : string;
  CustomerRef : option string;
  AmountCents : Z;
  Currency : string;
  Status : Z;
  PaymentMethod : Z;
  PaymentType : Z;
  Provider : Z;
  RecurringInterval : option string;
  RecurringIntervalCount : option Z;
  ProviderPaymentID : option string;
  ProviderSubscriptionID : option string;
  CheckoutURL : option string;
  ProviderCallbackHash : string;
  ProviderCallbackURL : string;
  StatusCallbackURL : string;
  RefundedCents : Z;
  RefundableCents : Z;
  Metadata : list (string * string);
  CallbackDeliveryStatus : Z;
  CallbackDeliveryAttempts : Z;
  CallbackDeliveryNextAt : option Z;
  CallbackDeliveryLastErr : option string;
  CreatedAt : Z;
  UpdatedAt : Z
}.

(** [p.ID = v] *)
Definition set_ID (v : Z) (p : t) : t :=
  {| ID := v;
     RequestID := RequestID p;
     CallerService := CallerService p;
     ResourceType := ResourceType p;
     ResourceID := ResourceID p;
     CustomerRef := CustomerRef p;
     AmountCents := AmountCents p;
     Currency := Currency p;
     Status := Status p;
     PaymentMethod := PaymentMethod p;
     PaymentType := PaymentType p;
     Provider := Provider p;
     RecurringInterval := RecurringInterval p;
     RecurringIntervalCount := RecurringIntervalCount p;
     ProviderPaymentID := ProviderPaymentID p;
     ProviderSubscriptionID := ProviderSubscriptionID p;
     CheckoutURL := CheckoutURL p;
     ProviderCallbackHash := ProviderCallbackHash p;
     ProviderCallbackURL := ProviderCallbackURL p;
     StatusCallbackURL := StatusCallbackURL p;
     RefundedCents := RefundedCents p;
     RefundableCents := RefundableCents p;
     Metadata := Metadata p;
     CallbackDeliveryStatus := CallbackDeliveryStatus p;
     CallbackDeliveryAttempts := CallbackDeliveryAttempts p;
     CallbackDeliveryNextAt := CallbackDeliveryNextAt p;
     CallbackDeliveryLastErr := CallbackDeliveryLastErr p;
     CreatedAt := CreatedAt p;
     UpdatedAt := UpdatedAt p |}.

(** [p.Status = v] *)
Definition set_Status (v : Z) (p : t) : t :=
  {| ID := ID p;
     RequestID := RequestID p;
     CallerService := CallerService p;
     ResourceType := ResourceType p;
     ResourceID := ResourceID p;
     CustomerRef := CustomerRef p;
     AmountCents := AmountCents p;
     Currency := Currency p;
     Status := v;
     PaymentMethod := PaymentMethod p;
     PaymentType := PaymentType p;
     Provider := Provider p;
     RecurringInterval := RecurringInterval p;
     RecurringIntervalCount := RecurringIntervalCount p;
     ProviderPaymentID := ProviderPaymentID p;
     ProviderSubscriptionID := ProviderSubscriptionID p;
     CheckoutURL := CheckoutURL p;
     ProviderCallbackHash := ProviderCallbackHash p;
     ProviderCallbackURL := ProviderCallbackURL p;
     StatusCallbackURL := StatusCallbackURL p;
     RefundedCents := RefundedCents p;
     RefundableCents := RefundableCents p;
     Metadata := Metadata p;
     CallbackDeliveryStatus := CallbackDeliveryStatus p;
     CallbackDeliveryAttempts := CallbackDeliveryAttempts p;
     CallbackDeliveryNextAt := CallbackDeliveryNextAt p;
     CallbackDeliveryLastErr := CallbackDeliveryLastErr p;
     CreatedAt := CreatedAt p;
     UpdatedAt := UpdatedAt p |}.

(** [p.ProviderPaymentID = v] *)
Definition set_ProviderPaymentID (v : option string) (p : t) : t :=
  {| ID := ID p;
     RequestID := RequestID p;
     CallerService := CallerService p;
     ResourceType := ResourceType p;
     ResourceID := ResourceID p;
     CustomerRef := CustomerRef p;
     AmountCents := AmountCents p;
     Currency := Currency p;
     Status := Status p;
     PaymentMethod := PaymentMethod p;
     PaymentType := PaymentType p;
     Provider := Provider p;
     RecurringInterval := RecurringInterval p;
     RecurringIntervalCount := RecurringIntervalCount p;
     ProviderPaymentID := v;
     ProviderSubscriptionID := ProviderSubscriptionID p;
     CheckoutURL := CheckoutURL p;
     ProviderCallbackHash := ProviderCallbackHash p;
     ProviderCallbackURL := ProviderCallbackURL p;
     StatusCallbackURL := StatusCallbackURL p;
     RefundedCents := RefundedCents p;
     RefundableCents := RefundableCents p;
     Metadata := Metadata p;
     CallbackDeliveryStatus := CallbackDeliveryStatus p;
     CallbackDeliveryAttempts := CallbackDeliveryAttempts p;
     CallbackDeliveryNextAt := CallbackDeliveryNextAt p;
     CallbackDeliveryLastErr := CallbackDeliveryLastErr p;
     CreatedAt := CreatedAt p;
     UpdatedAt := UpdatedAt p |}.

(** [p.ProviderSubscriptionID = v] *)
Definition set_ProviderSubscriptionID (v : option string) (p : t) : t :=
  {| ID := ID p;
     RequestID := RequestID p;
     CallerService := CallerService p;
     ResourceType := ResourceType p;
     ResourceID := ResourceID p;
     CustomerRef := CustomerRef p;
     AmountCents := AmountCents p;
     Currency := Currency p;
     Status := Status p;
     PaymentMethod := PaymentMethod p;
     PaymentType := PaymentType p;
     Provider := Provider p;
     RecurringInterval := RecurringInterval p;
     RecurringIntervalCount := RecurringIntervalCount p;
     ProviderPaymentID := ProviderPaymentID p;
     ProviderSubscriptionID := v;
     CheckoutURL := CheckoutURL p;
     ProviderCallbackHash := ProviderCallbackHash p;
     ProviderCallbackURL := ProviderCallbackURL p;
     StatusCallbackURL := StatusCallbackURL p;
     RefundedCents := RefundedCents p;
     RefundableCents := RefundableCents p;
     Metadata := Metadata p;
     CallbackDeliveryStatus := CallbackDeliveryStatus p;
     CallbackDeliveryAttempts := CallbackDeliveryAttempts p;
     CallbackDeliveryNextAt := CallbackDeliveryNextAt p;
     CallbackDeliveryLastErr := CallbackDeliveryLastErr p;
     CreatedAt := CreatedAt p;
     UpdatedAt := UpdatedAt p |}.

(** [p.CallbackDeliveryStatus = v] *)
Definition set_CallbackDeliveryStatus (v : Z) (p : t) : t :=
  {| ID := ID p;
     RequestID := RequestID p;
     CallerService := CallerService p;
     ResourceType := ResourceType p;
     ResourceID := ResourceID p;
     CustomerRef := CustomerRef p;
     AmountCents := AmountCents p;
     Currency := Currency p;
     Status := Status p;
     PaymentMethod := PaymentMethod p;
     PaymentType := PaymentType p;
     Provider := Provider p;
     RecurringInterval := RecurringInterval p;
     RecurringIntervalCount := RecurringIntervalCount p;
     ProviderPaymentID := ProviderPaymentID p;
     ProviderSubscriptionID := ProviderSubscriptionID p;
     CheckoutURL := CheckoutURL p;
     ProviderCallbackHash := ProviderCallbackHash p;
     ProviderCallbackURL := ProviderCallbackURL p;
     StatusCallbackURL := StatusCallbackURL p;
     RefundedCents := RefundedCents p;
     RefundableCents := RefundableCents p;
     Metadata := Metadata p;
     CallbackDeliveryStatus := v;
     CallbackDeliveryAttempts := CallbackDeliveryAttempts p;
     CallbackDeliveryNextAt := CallbackDeliveryNextAt p;
     CallbackDeliveryLastErr := CallbackDeliveryLastErr p;
     CreatedAt := CreatedAt p;
     UpdatedAt := UpdatedAt p |}.

(** [p.CallbackDeliveryAttempts = v] *)
Definition set_CallbackDeliveryAttempts (v : Z) (p : t) : t :=
  {| ID := ID p;
     RequestID := RequestID p;
     CallerService := CallerService p;
     ResourceType := ResourceType p;
     ResourceID := ResourceID p;
     CustomerRef := CustomerRef p;
     AmountCents := AmountCents p;
     Currency := Currency p;
     Status := Status p;
     PaymentMethod := PaymentMethod p;
     PaymentType := PaymentType p;
     Provider := Provider p;
     RecurringInterval := RecurringInterval p;
     RecurringIntervalCount := RecurringIntervalCount p;
     ProviderPaymentID := ProviderPaymentID p;
     ProviderSubscriptionID := ProviderSubscriptionID p;
     CheckoutURL := CheckoutURL p;
     ProviderCallbackHash := ProviderCallbackHash p;
     ProviderCallbackURL := ProviderCallbackURL p;
     StatusCallbackURL := StatusCallbackURL p;
     RefundedCents := RefundedCents p;
     RefundableCents := RefundableCents p;
     Metadata := Metadata p;
     CallbackDeliveryStatus := CallbackDeliveryStatus p;
     CallbackDeliveryAttempts := v;
     CallbackDeliveryNextAt := CallbackDeliveryNextAt p;
     CallbackDeliveryLastErr := CallbackDeliveryLastErr p;
     CreatedAt := CreatedAt p;
     UpdatedAt := UpdatedAt p |}.

(** [p.CallbackDeliveryNextAt = v] *)
Definition set_CallbackDeliveryNextAt (v : option Z) (p : t) : t :=
  {| ID := ID p;
     RequestID := RequestID p;
     CallerService := CallerService p;
     ResourceType := ResourceType p;
     ResourceID := ResourceID p;
     CustomerRef := CustomerRef p;
     AmountCents := AmountCents p;
     Currency := Currency p;
     Status := Status p;
     PaymentMethod := PaymentMethod p;
     PaymentType := PaymentType p;
     Provider := Provider p;
     RecurringInterval := RecurringInterval p;
     RecurringIntervalCount := RecurringIntervalCount p;
     ProviderPaymentID := ProviderPaymentID p;
     ProviderSubscriptionID := ProviderSubscriptionID p;
     CheckoutURL := CheckoutURL p;
     ProviderCallbackHash := ProviderCallbackHash p;
     ProviderCallbackURL := ProviderCallbackURL p;
     StatusCallbackURL := StatusCallbackURL p;
     RefundedCents := RefundedCents p;
     RefundableCents := RefundableCents p;
     Metadata := Metadata p;
     CallbackDeliveryStatus := CallbackDeliveryStatus p;
     CallbackDeliveryAttempts := CallbackDeliveryAttempts p;
     CallbackDeliveryNextAt := v;
     CallbackDeliveryLastErr := CallbackDeliveryLastErr p;
     CreatedAt := CreatedAt p;
     UpdatedAt := UpdatedAt p |}.

(** [p.CallbackDeliveryLastErr = v] *)
Definition set_CallbackDeliveryLastErr (v : option string) (p : t) : t :=
  {| ID := ID p;
     RequestID := RequestID p;
     CallerService := CallerService p;
     ResourceType := ResourceType p;
     ResourceID := ResourceID p;
     CustomerRef := CustomerRef p;
     AmountCents := AmountCents p;
     Currency := Currency p;
     Status := Status p;
     PaymentMethod := PaymentMethod p;
     PaymentType := PaymentType p;
     Provider := Provider p;
     RecurringInterval := RecurringInterval p;
     RecurringIntervalCount := RecurringIntervalCount p;
     ProviderPaymentID := ProviderPaymentID p;
     ProviderSubscriptionID := ProviderSubscriptionID p;
     CheckoutURL := CheckoutURL p;
     ProviderCallbackHash := ProviderCallbackHash p;
     ProviderCallbackURL := ProviderCallbackURL p;
     StatusCallbackURL := StatusCallbackURL p;
     RefundedCents := RefundedCents p;
     RefundableCents := RefundableCents p;
     Metadata := Metadata p;
     CallbackDeliveryStatus := CallbackDeliveryStatus p;
     CallbackDeliveryAttempts := CallbackDeliveryAttempts p;
     CallbackDeliveryNextAt := CallbackDeliveryNextAt p;
     CallbackDeliveryLastErr := v;
     CreatedAt := CreatedAt p;
     UpdatedAt := UpdatedAt p |}.

(** [p.UpdatedAt = v] *)
Definition set_UpdatedAt (v : Z) (p : t) : t :=
  {| ID := ID p;
     RequestID := RequestID p;
     CallerService := CallerService p;
     ResourceType := ResourceType p;
     ResourceID := ResourceID p;
     CustomerRef := CustomerRef p;
     AmountCents := AmountCents p;
     Currency := Currency p;
     Status := Status p;
     PaymentMethod := PaymentMethod p;
     PaymentType := PaymentType p;
     Provider := Provider p;
     RecurringInterval := RecurringInterval p;
     RecurringIntervalCount := RecurringIntervalCount p;
     ProviderPaymentID := ProviderPaymentID p;
     ProviderSubscriptionID := ProviderSubscriptionID p;
     CheckoutURL := CheckoutURL p;
     ProviderCallbackHash := ProviderCallbackHash p;
     ProviderCallbackURL := ProviderCallbackURL p;
     StatusCallbackURL := StatusCallbackURL p;
     RefundedCents := RefundedCents p;
     RefundableCents := RefundableCents p;
     Metadata := Metadata p;
     CallbackDeliveryStatus := CallbackDeliveryStatus p;
     CallbackDeliveryAttempts := CallbackDeliveryAttempts p;
     CallbackDeliveryNextAt := CallbackDeliveryNextAt p;
     CallbackDeliveryLastErr := CallbackDeliveryLastErr p;
     CreatedAt := CreatedAt p;
     UpdatedAt := v |}.

End Payment.

Module PaymentEvent.
Record t : Type := mk {
  ID : Z;
  PaymentID : Z;
  EventType : string;
  OldStatus : option Z;
  NewStatus : Z;
  ProviderEventID : option string;
  PayloadJSON : option string;
  CreatedAt : Z
}.
End PaymentEvent.

Module PaymentCallback.
Record t : Type := mk {
  ID : Z;
  PaymentID : option Z;
  Provider : string;
  CallbackHash : string;
  Signature : string;
  PayloadJSON : string;
  Status : Z;
  Error : option string;
  CreatedAt : Z;
  UpdatedAt : Z
}.
End PaymentCallback.

(* ===================================================================== *)
(** * Package [provider] *)
(* ===================================================================== *)

Module CreateInput.
Record t : Type := mk {
  RequestID : string;
  CallbackHash : string;
  ResourceType : string;
  ResourceID : string;
  AmountCents : Z;
  Currency : string;
  PaymentMethod : Z;
  PaymentType : Z;
  RecurringInterval : string;
  RecurringIntervalCount : Z;
  CustomerRef : option string;
  Metadata : list (string * string);
  SuccessURL : string;
  CancelURL : string
}.
End CreateInput.

Module CreateOutput.
Record t : Type := mk {
  ProviderPaymentID : option string;
  ProviderSubscriptionID : option string;
  CheckoutURL : option string;
  ProviderCallbackURL : string;
  InitialStatus : Z
}.
End CreateOutput.

Module CallbackEvent.
Record t : Type := mk {
  ProviderEventID : option string;
  ProviderPaymentID : option string;
  ProviderSubscriptionID : option string;
  EventType : string;
  NewStatus : Z
}.
End CallbackEvent.

(* ===================================================================== *)
(** * Collaborators: calls, traces and the interfaces of the service *)
(* ===================================================================== *)

(** The outbound request built by the dispatcher. *)
Module HttpRequest.
Record t : Type := mk {
  Method : string;
  URL : string;
  Header : list (string * string);
  Body : string
}.
End HttpRequest.

(** One entry per call the service makes on a collaborator, with the
    arguments of the call. *)
Inductive Call : Type :=
| PaymentFindByID (id : Z)
| PaymentFindByCallerRequestID (callerService requestID : string)
| PaymentFindByCallbackHash (providerCode : Z) (callbackHash : string)
| PaymentCreate (p : Payment.t)
| PaymentUpdate (p : Payment.t)
| PaymentListDueCallbackDispatch (now limit : Z)
| PaymentListExpiredPending (cutoff limit : Z)
| PaymentListForReconcile (before limit : Z)
| EventCreate (e : PaymentEvent.t)
| CallbackCreate (c : PaymentCallback.t)
| ProviderCreatePayment (code : Z) (input : CreateInput.t)
| ProviderVerifyAndParseCallback (code : Z) (payload signature : string)
| ProviderGetPaymentStatus (code : Z) (providerPaymentID : string)
| HttpDo (req : HttpRequest.t).

(** The state threaded through an operation: the world of the collaborators
    (database, provider, network) and the calls made so far, newest first. *)
Record State (W : Type) : Type := mkState {
  world : W;
  trace : list Call
}.

Definition M (W A : Type) : Type := State W -> A * State W.

Definition ret {W A : Type} (a : A) : M W A := fun st => (a, st).

Definition bind {W A B : Type} (m : M W A) (k : A -> M W B) : M W B :=
  fun st => let (a, st') := m st in k a st'.

Notation "x <- m ;; k" := (bind m (fun x => k))
  (at level 61, m at next level, right associativity).

(** A collaborator call: run it on the world and log it. *)
Definition call {W A : Type} (c : Call) (f : W -> A * W) : M W A :=
  fun st =>
    let (a, w) := f (world st) in
    (a, {| world := w; trace := c :: trace st |}).

(** [interface paymentRepository].  [Create] returns the id it stored in
    [payment.ID]; a Go [error] result is an [option error]; a slice of
    pointers is a list of options ([None] is a nil entry). *)
Module paymentRepository.
Record t (W : Type) : Type := mk {
  Create : Payment.t -> W -> result Z * W;
  Update : Payment.t -> W -> option error * W;
  FindByID : Z -> W -> result (option Payment.t) * W;
  FindByCallerRequestID : string -> string -> W -> result (option Payment.t) * W;
  FindByCallbackHash : Z -> string -> W -> result (option Payment.t) * W;
  ListDueCallbackDispatch : Z -> Z -> W -> result (list (option Payment.t)) * W;
  ListExpiredPending : Z -> Z -> W -> result (list (option Payment.t)) * W;
  ListForReconcile : Z -> Z -> W -> result (list (option Payment.t)) * W
}.
End paymentRepository.

(** [interface paymentEventRepository]. *)
Module paymentEventRepository.
Record t (W : Type) : Type := mk {
  Create : PaymentEvent.t -> W -> option error * W
}.
End paymentEventRepository.

(** [interface paymentCallbackRepository]. *)
Module paymentCallbackRepository.
Record t (W : Type) : Type := mk {
  Create : PaymentCallback.t -> W -> option error * W
}.
End paymentCallbackRepository.

(** [interface provider.Provider].  [VerifyAndParseCallback] may return a
    nil event together with a nil error. *)
Module Provider.
Record t (W : Type) : Type := mk {
  Code : Z;
  CreatePayment : CreateInput.t -> W -> result CreateOutput.t * W;
  VerifyAndParseCallback : string -> string -> W -> result (option CallbackEvent.t) * W;
  GetPaymentStatus : string -> W -> result Z * W
}.
End Provider.

(** [provider.Registry]: the map from provider code to provider. *)
Module Registry.
Record t (W : Type) : Type := mk {
  providers : Z -> option (Provider.t W)
}.

(** [NewRegistry]: a later provider replaces an earlier one with its code. *)
Definition NewRegistry {W : Type} (ps : list (Provider.t W)) : t W :=
  {| providers :=
       fold_left
         (fun items p code => if code =? Provider.Code p then Some p else items code)
         ps (fun _ => None) |}.

Definition Get {W : Type} (r : t W) (code : Z) : result (Provider.t W) :=
  match providers r code with
  | Some p => Ok p
  | None => Err provider_ErrProviderNotSupported
  end.
End Registry.

(** Modelled from the spec: package [config] is not among the sources; these
    are the configuration knobs the service reads ([CallbackMaxAttempts] and
    [JobBatchSize] are [int32], the others durations). *)
Module PaymentsConfig.
Record t : Type := mk {
  CallbackMaxAttempts : Z;
  CallbackRetryInterval : Z;
  CallbackHTTPTimeout : Z;
  PendingTimeout : Z;
  ReconcileStaleAfter : Z;
  JobBatchSize : Z
}.
End PaymentsConfig.

(** The pieces of the Go runtime and standard library the service calls and
    that the embedding keeps abstract: the Unicode case tables, the JSON
    encoding of the payment envelope ([json.Marshal] of
    [PaymentEnvelopeResponse{mapper.PaymentToProto(payment)}]) and the URL
    validation of [http.NewRequestWithContext]. *)
Module GoRuntime.
Record t : Type := mk {
  unicodeLower : string -> string;
  unicodeUpper : string -> string;
  marshalEnvelope : Payment.t -> result string;
  newRequestError : string -> string -> option error
}.
End GoRuntime.

(** [struct PaymentService].  [callbackHTTP] is [callbackHTTP.Do]: the status
    code of the response, or the transport error (a timeout is one of the
    transport errors).  [runtime] is not a field of the Go struct: it holds
    the library functions of [GoRuntime]. *)
Module PaymentService.
Record t (W : Type) : Type := mk {
  paymentRepo : paymentRepository.t W;
  eventRepo : paymentEventRepository.t W;
  callbackRepo : paymentCallbackRepository.t W;
  providerReg : Registry.t W;
  paymentsCfg : PaymentsConfig.t;
  appAPIKey : string;
  callbackHTTP : HttpRequest.t -> W -> result Z * W;
  runtime : GoRuntime.t
}.
End PaymentService.

Definition time_Second : Z := 1000000000.
Definition time_Minute : Z := 60 * time_Second.

Definition ToLower (rt : GoRuntime.t) : string -> string :=
  strings.ToLower (GoRuntime.unicodeLower rt).

Definition ToUpper (rt : GoRuntime.t) : string -> string :=
  strings.ToUpper (GoRuntime.unicodeUpper rt).

(** [int32] wrap-around. *)
Definition wrap32 (z : Z) : Z := (z + 2 ^ 31) mod 2 ^ 32 - 2 ^ 31.

(* ===================================================================== *)
(** * Package [service] *)
(* ===================================================================== *)

Definition defaultListLimit : Z := 100.
Definition defaultBatchSize : Z := 100.

Definition paymentCallbackStatusProcessed : Z := 10.
Definition paymentCallbackStatusRejected : Z := 20.

Definition NewPaymentService {W : Type}
  (paymentRepo : paymentRepository.t W)
  (eventRepo : paymentEventRepository.t W)
  (callbackRepo : paymentCallbackRepository.t W)
  (providerReg : Registry.t W)
  (paymentsCfg : PaymentsConfig.t)
  (appAPIKey : string)
  (transport : HttpRequest.t -> W -> result Z * W)
  (rt : GoRuntime.t) : PaymentService.t W :=
  {| PaymentService.paymentRepo := paymentRepo;
     PaymentService.eventRepo := eventRepo;
     PaymentService.callbackRepo := callbackRepo;
     PaymentService.providerReg := providerReg;
     PaymentService.paymentsCfg := paymentsCfg;
     PaymentService.appAPIKey := strings.TrimSpace appAPIKey;
     PaymentService.callbackHTTP := transport;
     PaymentService.runtime := rt |}.

Definition markForCallbackDelivery (payment : Payment.t) (now : Z) : Payment.t :=
  let payment := Payment.set_CallbackDeliveryStatus CallbackDeliveryPending payment in
  let payment := Payment.set_CallbackDeliveryAttempts 0 payment in
  let payment := Payment.set_CallbackDeliveryNextAt (Some now) payment in
  Payment.set_CallbackDeliveryLastErr None payment.

Definition batchSize {W : Type} (s : PaymentService.t W) : Z :=
  if PaymentsConfig.JobBatchSize (PaymentService.paymentsCfg s) >? 0
  then PaymentsConfig.JobBatchSize (PaymentService.paymentsCfg s)
  else defaultBatchSize.

Definition terminalStatus (status : Z) : bool :=
  (status =? PaymentStatus_PAID) || (status =? PaymentStatus_FAILED)
  || (status =? PaymentStatus_CANCELED) || (status =? PaymentStatus_EXPIRED).

Definition normalizeOptionalString (v : string) : option string :=
  let trimmed := strings.TrimSpace v in
  if (trimmed =? "")%string then None else Some trimmed.

Definition normalizeOptionalInt32 (v : Z) : option Z :=
  if v <=? 0 then None else Some v.

(** [dst[k] = v] on a map kept as an association list. *)
Fixpoint map_set (m : list (string * string)) (k v : string) : list (string * string) :=
  match m with
  | [] => [(k, v)]
  | (k', v') :: m' => if (k' =? k)%string then (k, v) :: m' else (k', v') :: map_set m' k v
  end.

Definition cloneMetadata (src : list (string * string)) : list (string * string) :=
  match src with
  | [] => []
  | _ => fold_left (fun dst kv => map_set dst (fst kv) (snd kv)) src []
  end.

Definition parseProviderCode (rt : GoRuntime.t) (providerRaw : string) : result Z :=
  let tag := ToLower rt (strings.TrimSpace providerRaw) in
  if (tag =? "stripe")%string || (tag =? "1")%string
  then Ok ProviderType_STRIPE
  else Err provider_ErrProviderNotSupported.

Definition truncate (value : string) (max : Z) : string :=
  if strings.len value <=? max then value else substring 0 (Z.to_nat max) value.

Definition keepFirstErr (current candidate : option error) : option error :=
  match current with
  | Some _ => current
  | None => candidate
  end.

(** The [entity.PaymentEvent] literal of the lifecycle events
    ([payment_created], [payment_canceled], [payment_reconciled],
    [payment_expired], [callback_dispatched], [callback_dispatch_failed]):
    no provider event id, no payload. *)
Definition lifecycleEvent (paymentID : Z) (eventType : string) (oldStatus : option Z)
  (newStatus : Z) (now : Z) : PaymentEvent.t :=
  {| PaymentEvent.ID := 0;
     PaymentEvent.PaymentID := paymentID;
     PaymentEvent.EventType := eventType;
     PaymentEvent.OldStatus := oldStatus;
     PaymentEvent.NewStatus := newStatus;
     PaymentEvent.ProviderEventID := None;
     PaymentEvent.PayloadJSON := None;
     PaymentEvent.CreatedAt := now |}.


(** How the operations see the clock and the random source: every execution
    path of an operation reads [time.Now().UTC()] once, and [CreatePayment]
    draws [uuid.NewString()] once; the values read are the arguments [now]
    and [uuid]. *)

Definition CreatePayment {W : Type} (s : PaymentService.t W) (now : Z) (uuid : string)
  (req : CreatePaymentRequest.t) : M W (result Payment.t) :=
  let rt := PaymentService.runtime s in
  let requestID := strings.TrimSpace (CreatePaymentRequest.RequestId req) in
  let callerService := strings.TrimSpace (CreatePaymentRequest.CallerService req) in
  if (requestID =? "")%string || (callerService =? "")%string then ret (Err ErrInvalidRequest)
  else
    found <- call (PaymentFindByCallerRequestID callerService requestID)
               (paymentRepository.FindByCallerRequestID (PaymentService.paymentRepo s)
                  callerService requestID) ;;
    match found with
    | Err err => ret (Err err)
    | Ok (Some existing) => ret (Ok existing)
    | Ok None =>
        let providerCode :=
          if CreatePaymentRequest.Provider req =? ProviderType_UNSPECIFIED
          then ProviderType_STRIPE
          else CreatePaymentRequest.Provider req in
        match Registry.Get (PaymentService.providerReg s) providerCode with
        | Err err =>
            if errors_Is err provider_ErrProviderNotSupported
            then ret (Err ErrProviderUnsupported)
            else ret (Err err)
        | Ok providerClient =>
            let callbackHash := uuid in
            let customerRef := normalizeOptionalString (CreatePaymentRequest.CustomerRef req) in
            let metadata := cloneMetadata (CreatePaymentRequest.Metadata req) in
            let input :=
              {| CreateInput.RequestID := requestID;
                 CreateInput.CallbackHash := callbackHash;
                 CreateInput.ResourceType := strings.TrimSpace (CreatePaymentRequest.ResourceType req);
                 CreateInput.ResourceID := strings.TrimSpace (CreatePaymentRequest.ResourceId req);
                 CreateInput.AmountCents := CreatePaymentRequest.AmountCents req;
                 CreateInput.Currency :=
                   ToUpper rt (strings.TrimSpace (CreatePaymentRequest.Currency req));
                 CreateInput.PaymentMethod := CreatePaymentRequest.PaymentMethod req;
                 CreateInput.PaymentType := CreatePaymentRequest.PaymentType req;
                 CreateInput.RecurringInterval :=
                   ToLower rt (strings.TrimSpace (CreatePaymentRequest.RecurringInterval req));
                 CreateInput.RecurringIntervalCount := CreatePaymentRequest.RecurringIntervalCount req;
                 CreateInput.CustomerRef := customerRef;
                 CreateInput.Metadata := metadata;
                 CreateInput.SuccessURL := strings.TrimSpace (CreatePaymentRequest.SuccessUrl req);
                 CreateInput.CancelURL := strings.TrimSpace (CreatePaymentRequest.CancelUrl req) |} in
            created <- call (ProviderCreatePayment (Provider.Code providerClient) input)
                         (Provider.CreatePayment providerClient input) ;;
            match created with
            | Err err => ret (Err err)
            | Ok providerOutput =>
                let payment :=
                  {| Payment.ID := 0;
                     Payment.RequestID := requestID;
                     Payment.CallerService := callerService;
                     Payment.ResourceType := strings.TrimSpace (CreatePaymentRequest.ResourceType req);
                     Payment.ResourceID := strings.TrimSpace (CreatePaymentRequest.ResourceId req);
                     Payment.CustomerRef := customerRef;
                     Payment.AmountCents := CreatePaymentRequest.AmountCents req;
                     Payment.Currency :=
                       ToUpper rt (strings.TrimSpace (CreatePaymentRequest.Currency req));
                     Payment.Status := CreateOutput.InitialStatus providerOutput;
                     Payment.PaymentMethod := CreatePaymentRequest.PaymentMethod req;
                     Payment.PaymentType := CreatePaymentRequest.PaymentType req;
                     Payment.Provider := providerCode;
                     Payment.RecurringInterval :=
                       normalizeOptionalString
                         (ToLower rt (strings.TrimSpace (CreatePaymentRequest.RecurringInterval req)));
                     Payment.RecurringIntervalCount :=
                       normalizeOptionalInt32 (CreatePaymentRequest.RecurringIntervalCount req);
                     Payment.ProviderPaymentID := CreateOutput.ProviderPaymentID providerOutput;
                     Payment.ProviderSubscriptionID := CreateOutput.ProviderSubscriptionID providerOutput;
                     Payment.CheckoutURL := CreateOutput.CheckoutURL providerOutput;
                     Payment.ProviderCallbackHash := callbackHash;
                     Payment.ProviderCallbackURL := CreateOutput.ProviderCallbackURL providerOutput;
                     Payment.StatusCallbackURL :=
                       strings.TrimSpace (CreatePaymentRequest.StatusCallbackUrl req);
                     Payment.RefundedCents := 0;
                     Payment.RefundableCents := CreatePaymentRequest.AmountCents req;
                     Payment.Metadata := metadata;
                     Payment.CallbackDeliveryStatus := CallbackDeliveryNone;
                     Payment.CallbackDeliveryAttempts := 0;
                     Payment.CallbackDeliveryNextAt := None;
                     Payment.CallbackDeliveryLastErr := None;
                     Payment.CreatedAt := now;
                     Payment.UpdatedAt := now |} in
                let payment :=
                  if terminalStatus (Payment.Status payment)
                  then markForCallbackDelivery payment now
                  else payment in
                inserted <- call (PaymentCreate payment)
                              (paymentRepository.Create (PaymentService.paymentRepo s) payment) ;;
                match inserted with
                | Err err =>
                    if errors_Is err repository_ErrPaymentAlreadyExists
                    then ret (Err ErrPaymentAlreadyExists)
                    else ret (Err err)
                | Ok id =>
                    let payment := Payment.set_ID id payment in
                    let event :=
                      lifecycleEvent (Payment.ID payment) "payment_created" None
                        (Payment.Status payment) now in
                    _ <- call (EventCreate event)
                           (paymentEventRepository.Create (PaymentService.eventRepo s) event) ;;
                    ret (Ok payment)
                end
            end
        end
    end.

Definition GetPayment {W : Type} (s : PaymentService.t W) (id : Z) : M W (result Payment.t) :=
  found <- call (PaymentFindByID id)
             (paymentRepository.FindByID (PaymentService.paymentRepo s) id) ;;
  match found with
  | Err err => ret (Err err)
  | Ok None => ret (Err ErrPaymentNotFound)
  | Ok (Some payment) => ret (Ok payment)
  end.

Definition CancelPayment {W : Type} (s : PaymentService.t W) (now : Z)
  (req : CancelPaymentRequest.t) : M W (result Payment.t) :=
  found <- call (PaymentFindByID (CancelPaymentRequest.Id req))
             (paymentRepository.FindByID (PaymentService.paymentRepo s)
                (CancelPaymentRequest.Id req)) ;;
  match found with
  | Err err => ret (Err err)
  | Ok None => ret (Err ErrPaymentNotFound)
  | Ok (Some payment) =>
      if Payment.Status payment =? PaymentStatus_PAID
      then ret (Err (fmt_Errorf_w ErrInvalidStatus ": paid payments cannot be canceled"))
      else
        let oldStatus := Payment.Status payment in
        let payment := Payment.set_Status PaymentStatus_CANCELED payment in
        let payment := markForCallbackDelivery payment now in
        let payment := Payment.set_UpdatedAt now payment in
        updated <- call (PaymentUpdate payment)
                     (paymentRepository.Update (PaymentService.paymentRepo s) payment) ;;
        match updated with
        | Some err =>
            if errors_Is err repository_ErrPaymentNotFound
            then ret (Err ErrPaymentNotFound)
            else ret (Err err)
        | None =>
            let event :=
              lifecycleEvent (Payment.ID payment) "payment_canceled" (Some oldStatus)
                (Payment.Status payment) now in
            _ <- call (EventCreate event)
                   (paymentEventRepository.Create (PaymentService.eventRepo s) event) ;;
            ret (Ok payment)
        end
  end.

(** The row written by [persistRejectedCallback]. *)
Definition rejectedCallbackRow (rt : GoRuntime.t) (now : Z) (paymentID : option Z)
  (req : HandleProviderCallbackRequest.t) (reason : string) : PaymentCallback.t :=
  let reason := strings.TrimSpace reason in
  let reason := if (reason =? "")%string then "callback rejected" else reason in
  let trimmedErr := truncate reason 1024 in
  {| PaymentCallback.ID := 0;
     PaymentCallback.PaymentID := paymentID;
     PaymentCallback.Provider :=
       ToLower rt (strings.TrimSpace (HandleProviderCallbackRequest.Provider req));
     PaymentCallback.CallbackHash :=
       strings.TrimSpace (HandleProviderCallbackRequest.CallbackHash req);
     PaymentCallback.Signature :=
       strings.TrimSpace (HandleProviderCallbackRequest.Signature req);
     PaymentCallback.PayloadJSON := HandleProviderCallbackRequest.Payload req;
     PaymentCallback.Status := paymentCallbackStatusRejected;
     PaymentCallback.Error := Some trimmedErr;
     PaymentCallback.CreatedAt := now;
     PaymentCallback.UpdatedAt := now |}.

Definition persistRejectedCallback {W : Type} (s : PaymentService.t W) (now : Z)
  (paymentID : option Z) (req : HandleProviderCallbackRequest.t) (reason : string)
  : M W unit :=
  let row := rejectedCallbackRow (PaymentService.runtime s) now paymentID req reason in
  _ <- call (CallbackCreate row)
         (paymentCallbackRepository.Create (PaymentService.callbackRepo s) row) ;;
  ret tt.

(** The mutation of the loaded payment in [HandleProviderCallback]: provider
    ids, status, delivery arming, [UpdatedAt]. *)
Definition applyParsedEvent (payment : Payment.t) (parsedEvent : CallbackEvent.t) (now : Z)
  : Payment.t :=
  let oldStatus := Payment.Status payment in
  let payment :=
    match CallbackEvent.ProviderPaymentID parsedEvent with
    | Some _ => Payment.set_ProviderPaymentID (CallbackEvent.ProviderPaymentID parsedEvent) payment
    | None => payment
    end in
  let payment :=
    match CallbackEvent.ProviderSubscriptionID parsedEvent with
    | Some _ =>
        Payment.set_ProviderSubscriptionID (CallbackEvent.ProviderSubscriptionID parsedEvent) payment
    | None => payment
    end in
  let payment :=
    if CallbackEvent.NewStatus parsedEvent >? 0
    then Payment.set_Status (CallbackEvent.NewStatus parsedEvent) payment
    else payment in
  let payment :=
    if negb (Payment.Status payment =? oldStatus) && terminalStatus (Payment.Status payment)
    then markForCallbackDelivery payment now
    else payment in
  Payment.set_UpdatedAt now payment.

(** The [entity.PaymentEvent] written by [HandleProviderCallback];
    [payment] is the payment after [applyParsedEvent]. *)
Definition providerCallbackEvent (payment : Payment.t) (oldStatus : Z)
  (parsedEvent : CallbackEvent.t) (payload : string) (now : Z) : PaymentEvent.t :=
  let eventType := strings.TrimSpace (CallbackEvent.EventType parsedEvent) in
  let eventType := if (eventType =? "")%string then "provider_callback" else eventType in
  let oldStatusPtr := if oldStatus =? Payment.Status payment then None else Some oldStatus in
  {| PaymentEvent.ID := 0;
     PaymentEvent.PaymentID := Payment.ID payment;
     PaymentEvent.EventType := eventType;
     PaymentEvent.OldStatus := oldStatusPtr;
     PaymentEvent.NewStatus := Payment.Status payment;
     PaymentEvent.ProviderEventID := CallbackEvent.ProviderEventID parsedEvent;
     PaymentEvent.PayloadJSON := Some payload;
     PaymentEvent.CreatedAt := now |}.

(** The processed [entity.PaymentCallback] written by [HandleProviderCallback]. *)
Definition processedCallbackRow (rt : GoRuntime.t) (now : Z) (payment : Payment.t)
  (req : HandleProviderCallbackRequest.t) : PaymentCallback.t :=
  {| PaymentCallback.ID := 0;
     PaymentCallback.PaymentID := Some (Payment.ID payment);
     PaymentCallback.Provider :=
       ToLower rt (strings.TrimSpace (HandleProviderCallbackRequest.Provider req));
     PaymentCallback.CallbackHash :=
       strings.TrimSpace (HandleProviderCallbackRequest.CallbackHash req);
     PaymentCallback.Signature :=
       strings.TrimSpace (HandleProviderCallbackRequest.Signature req);
     PaymentCallback.PayloadJSON := HandleProviderCallbackRequest.Payload req;
     PaymentCallback.Status := paymentCallbackStatusProcessed;
     PaymentCallback.Error := None;
     PaymentCallback.CreatedAt := now;
     PaymentCallback.UpdatedAt := now |}.

Definition HandleProviderCallback {W : Type} (s : PaymentService.t W) (now : Z)
  (req : HandleProviderCallbackRequest.t) : M W (result Payment.t) :=
  let rt := PaymentService.runtime s in
  match parseProviderCode rt (HandleProviderCallbackRequest.Provider req) with
  | Err err =>
      if errors_Is err provider_ErrProviderNotSupported
      then ret (Err ErrProviderUnsupported)
      else ret (Err err)
  | Ok providerCode =>
      match Registry.Get (PaymentService.providerReg s) providerCode with
      | Err err =>
          if errors_Is err provider_ErrProviderNotSupported
          then ret (Err ErrProviderUnsupported)
          else ret (Err err)
      | Ok providerClient =>
          let payload := HandleProviderCallbackRequest.Payload req in
          let signature := strings.TrimSpace (HandleProviderCallbackRequest.Signature req) in
          parsed <- call (ProviderVerifyAndParseCallback (Provider.Code providerClient)
                            payload signature)
                      (Provider.VerifyAndParseCallback providerClient payload signature) ;;
          match parsed with
          | Err err =>
              _ <- persistRejectedCallback s now None req
                     ("provider callback validation failed: " ++ Error err) ;;
              ret (Err ErrCallbackRejected)
          | Ok None =>
              _ <- persistRejectedCallback s now None req
                     "provider callback payload could not be parsed" ;;
              ret (Err ErrCallbackRejected)
          | Ok (Some parsedEvent) =>
              let callbackHash :=
                strings.TrimSpace (HandleProviderCallbackRequest.CallbackHash req) in
              found <- call (PaymentFindByCallbackHash providerCode callbackHash)
                         (paymentRepository.FindByCallbackHash (PaymentService.paymentRepo s)
                            providerCode callbackHash) ;;
              match found with
              | Err err => ret (Err err)
              | Ok None =>
                  _ <- persistRejectedCallback s now None req
                         "payment not found for callback hash" ;;
                  ret (Err ErrPaymentNotFound)
              | Ok (Some loaded) =>
                  let oldStatus := Payment.Status loaded in
                  let payment := applyParsedEvent loaded parsedEvent now in
                  updated <- call (PaymentUpdate payment)
                               (paymentRepository.Update (PaymentService.paymentRepo s) payment) ;;
                  match updated with
                  | Some err =>
                      if errors_Is err repository_ErrPaymentNotFound
                      then ret (Err ErrPaymentNotFound)
                      else ret (Err err)
                  | None =>
                      let event := providerCallbackEvent payment oldStatus parsedEvent payload now in
                      _ <- call (EventCreate event)
                             (paymentEventRepository.Create (PaymentService.eventRepo s) event) ;;
                      let row := processedCallbackRow rt now payment req in
                      callbackErr <- call (CallbackCreate row)
                                       (paymentCallbackRepository.Create
                                          (PaymentService.callbackRepo s) row) ;;
                      match callbackErr with
                      | Some err => ret (Err err)
                      | None => ret (Ok payment)
                      end
                  end
              end
          end
      end
  end.

(** A [for _, payment := range items] loop that threads [firstErr]. *)
Fixpoint forEach {W A : Type} (body : A -> option error -> M W (option error))
  (items : list A) (firstErr : option error) : M W (option error) :=
  match items with
  | [] => ret firstErr
  | item :: rest =>
      firstErr' <- body item firstErr ;;
      forEach body rest firstErr'
  end.

(** The body of the loop of [RunReconcileBatch]. *)
Definition reconcileItem {W : Type} (s : PaymentService.t W) (now : Z)
  (item : option Payment.t) (firstErr : option error) : M W (option error) :=
  match item with
  | None => ret firstErr
  | Some payment =>
      match Payment.ProviderPaymentID payment with
      | None => ret firstErr
      | Some providerPaymentID =>
          if (strings.TrimSpace providerPaymentID =? "")%string then ret firstErr
          else
            match Registry.Get (PaymentService.providerReg s) (Payment.Provider payment) with
            | Err err => ret (keepFirstErr firstErr (Some err))
            | Ok providerClient =>
                polled <- call (ProviderGetPaymentStatus (Provider.Code providerClient)
                                  (strings.TrimSpace providerPaymentID))
                            (Provider.GetPaymentStatus providerClient
                               (strings.TrimSpace providerPaymentID)) ;;
                match polled with
                | Err err => ret (keepFirstErr firstErr (Some err))
                | Ok newStatus =>
                    if (newStatus =? 0) || (newStatus =? Payment.Status payment)
                    then ret firstErr
                    else
                      let oldStatus := Payment.Status payment in
                      let payment := Payment.set_Status newStatus payment in
                      let payment :=
                        if terminalStatus newStatus
                        then markForCallbackDelivery payment now
                        else payment in
                      let payment := Payment.set_UpdatedAt now payment in
                      updated <- call (PaymentUpdate payment)
                                   (paymentRepository.Update (PaymentService.paymentRepo s)
                                      payment) ;;
                      match updated with
                      | Some err => ret (keepFirstErr firstErr (Some err))
                      | None =>
                          let event :=
                            lifecycleEvent (Payment.ID payment) "payment_reconciled"
                              (Some oldStatus) newStatus now in
                          _ <- call (EventCreate event)
                                 (paymentEventRepository.Create (PaymentService.eventRepo s)
                                    event) ;;
                          ret firstErr
                      end
                end
            end
      end
  end.

Definition RunReconcileBatch {W : Type} (s : PaymentService.t W) (now : Z)
  : M W (option error) :=
  let before := now - PaymentsConfig.ReconcileStaleAfter (PaymentService.paymentsCfg s) in
  listed <- call (PaymentListForReconcile before (batchSize s))
              (paymentRepository.ListForReconcile (PaymentService.paymentRepo s)
                 before (batchSize s)) ;;
  match listed with
  | Err err => ret (Some err)
  | Ok items => forEach (reconcileItem s now) items None
  end.

Definition recordDispatchFailure {W : Type} (s : PaymentService.t W)
  (payment : Payment.t) (now : Z) (dispatchErr : error) : M W (option error) :=
  let payment :=
    Payment.set_CallbackDeliveryAttempts
      (wrap32 (Payment.CallbackDeliveryAttempts payment + 1)) payment in
  let trimmed := truncate (Error dispatchErr) 1024 in
  let payment := Payment.set_CallbackDeliveryLastErr (Some trimmed) payment in
  let maxAttempts := PaymentsConfig.CallbackMaxAttempts (PaymentService.paymentsCfg s) in
  let maxAttempts := if maxAttempts <=? 0 then 1 else maxAttempts in
  let payment :=
    if Payment.CallbackDeliveryAttempts payment >=? maxAttempts
    then
      let payment := Payment.set_CallbackDeliveryStatus CallbackDeliveryFailed payment in
      Payment.set_CallbackDeliveryNextAt None payment
    else
      let retryInterval :=
        PaymentsConfig.CallbackRetryInterval (PaymentService.paymentsCfg s) in
      let retryInterval := if retryInterval <=? 0 then 5 * time_Minute else retryInterval in
      let next := now + retryInterval in
      let payment := Payment.set_CallbackDeliveryStatus CallbackDeliveryPending payment in
      Payment.set_CallbackDeliveryNextAt (Some next) payment in
  let payment := Payment.set_UpdatedAt now payment in
  updated <- call (PaymentUpdate payment)
               (paymentRepository.Update (PaymentService.paymentRepo s) payment) ;;
  match updated with
  | Some err => ret (Some err)
  | None =>
      let event :=
        lifecycleEvent (Payment.ID payment) "callback_dispatch_failed" None
          (Payment.Status payment) now in
      _ <- call (EventCreate event)
             (paymentEventRepository.Create (PaymentService.eventRepo s) event) ;;
      ret (Some dispatchErr)
  end.

(** The request assembled by [dispatchCallback]. *)
Definition callbackRequest {W : Type} (s : PaymentService.t W) (payment : Payment.t)
  (body : string) : HttpRequest.t :=
  {| HttpRequest.Method := "POST";
     HttpRequest.URL := Payment.StatusCallbackURL payment;
     HttpRequest.Header :=
       [("Content-Type", "application/json"); ("X-Request-ID", Payment.RequestID payment)]
       ++ (if (PaymentService.appAPIKey s =? "")%string then []
           else [("X-API-Key", PaymentService.appAPIKey s)]);
     HttpRequest.Body := body |}.

Definition dispatchCallback {W : Type} (s : PaymentService.t W)
  (payment : Payment.t) (now : Z) : M W (option error) :=
  let rt := PaymentService.runtime s in
  if (strings.TrimSpace (Payment.StatusCallbackURL payment) =? "")%string
  then
    let errMsg := "status_callback_url is empty" in
    let payment := Payment.set_CallbackDeliveryStatus CallbackDeliveryFailed payment in
    let payment := Payment.set_CallbackDeliveryNextAt None payment in
    let payment := Payment.set_CallbackDeliveryLastErr (Some errMsg) payment in
    let payment := Payment.set_UpdatedAt now payment in
    call (PaymentUpdate payment)
      (paymentRepository.Update (PaymentService.paymentRepo s) payment)
  else
    match GoRuntime.marshalEnvelope rt payment with
    | Err err => ret (Some err)
    | Ok body =>
        match GoRuntime.newRequestError rt "POST" (Payment.StatusCallbackURL payment) with
        | Some err => recordDispatchFailure s payment now err
        | None =>
            let req := callbackRequest s payment body in
            resp <- call (HttpDo req) (PaymentService.callbackHTTP s req) ;;
            match resp with
            | Err err => recordDispatchFailure s payment now err
            | Ok statusCode =>
                if (statusCode <? 200) || (statusCode >=? 300)
                then recordDispatchFailure s payment now
                       (Opaque ("callback endpoint returned status=" ++ strings.Itoa statusCode))
                else
                  let payment :=
                    Payment.set_CallbackDeliveryStatus CallbackDeliverySuccess payment in
                  let payment := Payment.set_CallbackDeliveryNextAt None payment in
                  let payment := Payment.set_CallbackDeliveryLastErr None payment in
                  let payment := Payment.set_UpdatedAt now payment in
                  updated <- call (PaymentUpdate payment)
                               (paymentRepository.Update (PaymentService.paymentRepo s) payment) ;;
                  match updated with
                  | Some err => ret (Some err)
                  | None =>
                      let event :=
                        lifecycleEvent (Payment.ID payment) "callback_dispatched" None
                          (Payment.Status payment) now in
                      _ <- call (EventCreate event)
                             (paymentEventRepository.Create (PaymentService.eventRepo s) event) ;;
                      ret None
                  end
            end
        end
    end.

(** The body of the loop of [RunDispatchCallbacksBatch]. *)
Definition dispatchItem {W : Type} (s : PaymentService.t W) (now : Z)
  (item : option Payment.t) (firstErr : option error) : M W (option error) :=
  match item with
  | None => ret firstErr
  | Some payment =>
      err <- dispatchCallback s payment now ;;
      match err with
      | Some _ => ret (keepFirstErr firstErr err)
      | None => ret firstErr
      end
  end.

Definition RunDispatchCallbacksBatch {W : Type} (s : PaymentService.t W) (now : Z)
  : M W (option error) :=
  listed <- call (PaymentListDueCallbackDispatch now (batchSize s))
              (paymentRepository.ListDueCallbackDispatch (PaymentService.paymentRepo s)
                 now (batchSize s)) ;;
  match listed with
  | Err err => ret (Some err)
  | Ok items => forEach (dispatchItem s now) items None
  end.

(** The body of the loop of [RunExpirePendingBatch]. *)
Definition expireItem {W : Type} (s : PaymentService.t W) (now : Z)
  (item : option Payment.t) (firstErr : option error) : M W (option error) :=
  match item with
  | None => ret firstErr
  | Some payment =>
      if Payment.Status payment =? PaymentStatus_EXPIRED then ret firstErr
      else
        let oldStatus := Payment.Status payment in
        let payment := Payment.set_Status PaymentStatus_EXPIRED payment in
        let payment := markForCallbackDelivery payment now in
        let payment := Payment.set_UpdatedAt now payment in
        updated <- call (PaymentUpdate payment)
                     (paymentRepository.Update (PaymentService.paymentRepo s) payment) ;;
        match updated with
        | Some err => ret (keepFirstErr firstErr (Some err))
        | None =>
            let event :=
              lifecycleEvent (Payment.ID payment) "payment_expired" (Some oldStatus)
                (Payment.Status payment) now in
            _ <- call (EventCreate event)
                   (paymentEventRepository.Create (PaymentService.eventRepo s) event) ;;
            ret firstErr
        end
  end.

Definition RunExpirePendingBatch {W : Type} (s : PaymentService.t W) (now : Z)
  : M W (option error) :=
  let cutoff := now - PaymentsConfig.PendingTimeout (PaymentService.paymentsCfg s) in
  listed <- call (PaymentListExpiredPending cutoff (batchSize s))
              (paymentRepository.ListExpiredPending (PaymentService.paymentRepo s)
                 cutoff (batchSize s)) ;;
  match listed with
  | Err err => ret (Some err)
  | Ok items => forEach (expireItem s now) items None
  end.

(* ===================================================================== *)
(** * The in-memory collaborators of the unit tests *)
(* ===================================================================== *)

(** A Go [map[uint64]*entity.Payment] kept as an association list with one
    entry per key; iteration follows the list. *)
Fixpoint zmap_get (m : list (Z * Payment.t)) (k : Z) : option Payment.t :=
  match m with
  | [] => None
  | (k', v) :: m' => if k' =? k then Some v else zmap_get m' k
  end.

Fixpoint zmap_put (m : list (Z * Payment.t)) (k : Z) (v : Payment.t) : list (Z * Payment.t) :=
  match m with
  | [] => [(k, v)]
  | (k', v') :: m' => if k' =? k then (k, v) :: m' else (k', v') :: zmap_put m' k v
  end.

(** [struct servicePaymentRepo] and its methods. *)
Module servicePaymentRepo.
Record t : Type := mk {
  payments : list (Z * Payment.t);
  nextID : Z
}.

Definition newServicePaymentRepo : t := {| payments := []; nextID := 1 |}.

Definition sameKey (callerService requestID : string) (item : Payment.t) : bool :=
  ((Payment.CallerService item =? callerService)%string
   && (Payment.RequestID item =? requestID)%string)%bool.

Definition Create (payment : Payment.t) (r : t) : result Z * t :=
  if existsb (fun kv => sameKey (Payment.CallerService payment) (Payment.RequestID payment) (snd kv))
       (payments r)
  then (Err repository_ErrPaymentAlreadyExists, r)
  else
    let id := nextID r in
    (Ok id,
     {| payments := zmap_put (payments r) id (Payment.set_ID id payment);
        nextID := (nextID r + 1) mod 2 ^ 64 |}).

Definition Update (payment : Payment.t) (r : t) : option error * t :=
  match zmap_get (payments r) (Payment.ID payment) with
  | None => (Some (Sentinel repository_ErrPaymentNotFound), r)
  | Some _ =>
      (None,
       {| payments := zmap_put (payments r) (Payment.ID payment) payment;
          nextID := nextID r |})
  end.

Definition FindByID (id : Z) (r : t) : result (option Payment.t) * t :=
  (Ok (zmap_get (payments r) id), r).

Definition FindByCallerRequestID (callerService requestID : string) (r : t)
  : result (option Payment.t) * t :=
  (Ok (option_map snd
         (find (fun kv => sameKey callerService requestID (snd kv)) (payments r))), r).

Definition FindByCallbackHash (providerCode : Z) (callbackHash : string) (r : t)
  : result (option Payment.t) * t :=
  (Ok (option_map snd
         (find (fun kv => (Payment.Provider (snd kv) =? providerCode)
                          && (Payment.ProviderCallbackHash (snd kv) =? callbackHash)%string)
            (payments r))), r).

Definition limitItems (items : list (option Payment.t)) (limit : Z) : list (option Payment.t) :=
  if (limit <=? 0) || (limit >=? Z.of_nat (List.length items)) then items
  else firstn (Z.to_nat limit) items.

Definition pendingOrProcessing (item : Payment.t) : bool :=
  (Payment.Status item =? PaymentStatus_PENDING)
  || (Payment.Status item =? PaymentStatus_PROCESSING).

Definition select (keep : Payment.t -> bool) (r : t) : list (option Payment.t) :=
  map (fun kv => Some (snd kv)) (filter (fun kv => keep (snd kv)) (payments r)).

Definition ListDueCallbackDispatch (now limit : Z) (r : t)
  : result (list (option Payment.t)) * t :=
  (Ok (limitItems
         (select (fun item =>
                    (Payment.CallbackDeliveryStatus item =? CallbackDeliveryPending)
                    && match Payment.CallbackDeliveryNextAt item with
                       | Some nextAt => nextAt <=? now
                       | None => false
                       end) r) limit), r).

Definition ListExpiredPending (cutoff limit : Z) (r : t)
  : result (list (option Payment.t)) * t :=
  (Ok (limitItems
         (select (fun item => pendingOrProcessing item && (Payment.CreatedAt item <=? cutoff)) r)
         limit), r).

Definition ListForReconcile (before limit : Z) (r : t)
  : result (list (option Payment.t)) * t :=
  (Ok (limitItems
         (select (fun item =>
                    pendingOrProcessing item
                    && match Payment.ProviderPaymentID item with
                       | Some _ => true
                       | None => false
                       end
                    && (Payment.UpdatedAt item <=? before)) r) limit), r).
End servicePaymentRepo.

(** The world of the unit tests: the three in-memory repositories
    ([servicePaymentRepo], [serviceEventRepo], [serviceCallbackRepo]). *)
Module TestWorld.
Record t : Type := mk {
  repo : servicePaymentRepo.t;
  events : list PaymentEvent.t;
  callbacks : list PaymentCallback.t
}.

Definition empty : t :=
  {| repo := servicePaymentRepo.newServicePaymentRepo; events := []; callbacks := [] |}.

Definition onRepo {A : Type} (f : servicePaymentRepo.t -> A * servicePaymentRepo.t) (w : t)
  : A * t :=
  let (a, r) := f (repo w) in
  (a, {| repo := r; events := events w; callbacks := callbacks w |}).

Definition paymentRepo : paymentRepository.t t :=
  {| paymentRepository.Create := fun p => onRepo (servicePaymentRepo.Create p);
     paymentRepository.Update := fun p => onRepo (servicePaymentRepo.Update p);
     paymentRepository.FindByID := fun id => onRepo (servicePaymentRepo.FindByID id);
     paymentRepository.FindByCallerRequestID :=
       fun cs rid => onRepo (servicePaymentRepo.FindByCallerRequestID cs rid);
     paymentRepository.FindByCallbackHash :=
       fun code h => onRepo (servicePaymentRepo.FindByCallbackHash code h);
     paymentRepository.ListDueCallbackDispatch :=
       fun now limit => onRepo (servicePaymentRepo.ListDueCallbackDispatch now limit);
     paymentRepository.ListExpiredPending :=
       fun cutoff limit => onRepo (servicePaymentRepo.ListExpiredPending cutoff limit);
     paymentRepository.ListForReconcile :=
       fun before limit => onRepo (servicePaymentRepo.ListForReconcile before limit) |}.

(** [serviceEventRepo.Create]: appends a copy. *)
Definition eventRepo : paymentEventRepository.t t :=
  {| paymentEventRepository.Create :=
       fun e w => (None, {| repo := repo w; events := events w ++ [e];
                            callbacks := callbacks w |}) |}.

(** [serviceCallbackRepo.Create]: appends a copy. *)
Definition callbackRepo : paymentCallbackRepository.t t :=
  {| paymentCallbackRepository.Create :=
       fun c w => (None, {| repo := repo w; events := events w;
                            callbacks := callbacks w ++ [c] |}) |}.
End TestWorld.

(** [struct serviceProvider], the provider double of the tests. *)
Module serviceProvider.
Record t : Type := mk {
  createOutput : option CreateOutput.t;
  createErr : option error;
  callbackEvt : option CallbackEvent.t;
  callbackErr : option error;
  reconcile : Z;
  reconcileErr : option error
}.

Definition zero : t :=
  {| createOutput := None; createErr := None; callbackEvt := None; callbackErr := None;
     reconcile := 0; reconcileErr := None |}.

Definition CreatePayment (p : t) (_ : CreateInput.t) (w : TestWorld.t)
  : result CreateOutput.t * TestWorld.t :=
  match createErr p with
  | Some err => (Err err, w)
  | None =>
      match createOutput p with
      | Some out => (Ok out, w)
      | None =>
          (Ok {| CreateOutput.ProviderPaymentID := Some "cs_test_123";
                 CreateOutput.ProviderSubscriptionID := None;
                 CreateOutput.CheckoutURL := Some "https://stripe.example/checkout/session";
                 CreateOutput.ProviderCallbackURL := "https://gateway.example/callback/hash";
                 CreateOutput.InitialStatus := PaymentStatus_PENDING |}, w)
      end
  end.

Definition VerifyAndParseCallback (p : t) (_ _ : string) (w : TestWorld.t)
  : result (option CallbackEvent.t) * TestWorld.t :=
  match callbackErr p with
  | Some err => (Err err, w)
  | None =>
      match callbackEvt p with
      | Some evt => (Ok (Some evt), w)
      | None =>
          (Ok (Some {| CallbackEvent.ProviderEventID := None;
                       CallbackEvent.ProviderPaymentID := None;
                       CallbackEvent.ProviderSubscriptionID := None;
                       CallbackEvent.EventType := "checkout.session.completed";
                       CallbackEvent.NewStatus := PaymentStatus_PAID |}), w)
      end
  end.

Definition GetPaymentStatus (p : t) (_ : string) (w : TestWorld.t)
  : result Z * TestWorld.t :=
  match reconcileErr p with
  | Some err => (Err err, w)
  | None => (Ok (reconcile p), w)
  end.

Definition asProvider (p : t) : Provider.t TestWorld.t :=
  {| Provider.Code := ProviderType_STRIPE;
     Provider.CreatePayment := CreatePayment p;
     Provider.VerifyAndParseCallback := VerifyAndParseCallback p;
     Provider.GetPaymentStatus := GetPaymentStatus p |}.
End serviceProvider.

(** A runtime for concrete runs on ASCII inputs: the rune-wise case mappings
    are never reached, the envelope encodes and the callback URL parses. *)
Definition asciiRuntime : GoRuntime.t :=
  {| GoRuntime.unicodeLower := fun s => s;
     GoRuntime.unicodeUpper := fun s => s;
     GoRuntime.marshalEnvelope := fun p => Ok ("payment:" ++ Payment.RequestID p);
     GoRuntime.newRequestError := fun _ _ => None |}.

(** An [httptest] endpoint that answers every request with [statusCode]. *)
Definition callbackServer (statusCode : Z) (_ : HttpRequest.t) (w : TestWorld.t)
  : result Z * TestWorld.t :=
  (Ok statusCode, w).

(** The service of the unit tests: in-memory repositories, one provider
    double, the given configuration and the endpoint the dispatcher
    reaches. *)
Definition serviceForTest (cfg : PaymentsConfig.t) (p : serviceProvider.t)
  (transport : HttpRequest.t -> TestWorld.t -> result Z * TestWorld.t)
  : PaymentService.t TestWorld.t :=
  NewPaymentService TestWorld.paymentRepo TestWorld.eventRepo TestWorld.callbackRepo
    (Registry.NewRegistry [serviceProvider.asProvider p])
    cfg "payments-app-key" transport asciiRuntime.

(** [newPaymentServiceForTest]. *)
Definition newPaymentServiceForTest (p : serviceProvider.t)
  (transport : HttpRequest.t -> TestWorld.t -> result Z * TestWorld.t)
  : PaymentService.t TestWorld.t :=
  serviceForTest
    {| PaymentsConfig.CallbackMaxAttempts := 3;
       PaymentsConfig.CallbackRetryInterval := time_Second;
       PaymentsConfig.CallbackHTTPTimeout := time_Second;
       PaymentsConfig.PendingTimeout := time_Minute;
       PaymentsConfig.ReconcileStaleAfter := time_Minute;
       PaymentsConfig.JobBatchSize := 100 |}
    p transport.

(** The configuration of [TestRunDispatchCallbacksBatchFailureMarksFailed]:
    a single attempt. *)
Definition singleAttemptConfig : PaymentsConfig.t :=
  {| PaymentsConfig.CallbackMaxAttempts := 1;
     PaymentsConfig.CallbackRetryInterval := time_Second;
     PaymentsConfig.CallbackHTTPTimeout := 0;
     PaymentsConfig.PendingTimeout := 0;
     PaymentsConfig.ReconcileStaleAfter := 0;
     PaymentsConfig.JobBatchSize := 100 |}.

(** The stored payment of the unit tests of the service
    ([TestHandleProviderCallbackUpdatesStatusAndStoresCallback] and the batch
    tests): id 1, Stripe, callback hash "hash-1", created at [at_], with the
    given caller endpoint. *)
Definition testPaymentWith (statusCallbackURL : string) (status : Z) (at_ : Z)
  : Payment.t :=
  {| Payment.ID := 1;
     Payment.RequestID := "req-1";
     Payment.CallerService := "subscriptions-service";
     Payment.ResourceType := "";
     Payment.ResourceID := "";
     Payment.CustomerRef := None;
     Payment.AmountCents := 0;
     Payment.Currency := "";
     Payment.Status := status;
     Payment.PaymentMethod := 0;
     Payment.PaymentType := 0;
     Payment.Provider := ProviderType_STRIPE;
     Payment.RecurringInterval := None;
     Payment.RecurringIntervalCount := None;
     Payment.ProviderPaymentID := None;
     Payment.ProviderSubscriptionID := None;
     Payment.CheckoutURL := None;
     Payment.ProviderCallbackHash := "hash-1";
     Payment.ProviderCallbackURL := "https://gateway.example/callback/hash-1";
     Payment.StatusCallbackURL := statusCallbackURL;
     Payment.RefundedCents := 0;
     Payment.RefundableCents := 0;
     Payment.Metadata := [];
     Payment.CallbackDeliveryStatus := CallbackDeliveryNone;
     Payment.CallbackDeliveryAttempts := 0;
     Payment.CallbackDeliveryNextAt := None;
     Payment.CallbackDeliveryLastErr := None;
     Payment.CreatedAt := at_;
     Payment.UpdatedAt := at_ |}.

Definition testPayment : Z -> Z -> Payment.t :=
  testPaymentWith "https://caller.example/status".

(** The request of the creation tests, with the given idempotency key. *)
Definition testCreateRequestFor (requestId callerService : string)
  : CreatePaymentRequest.t :=
  {| CreatePaymentRequest.RequestId := requestId;
     CreatePaymentRequest.CallerService := callerService;
     CreatePaymentRequest.ResourceType := "subscription";
     CreatePaymentRequest.ResourceId := "sub-1";
     CreatePaymentRequest.CustomerRef := "";
     CreatePaymentRequest.AmountCents := 1000;
     CreatePaymentRequest.Currency := "USD";
     CreatePaymentRequest.PaymentMethod := 1;
     CreatePaymentRequest.PaymentType := 1;
     CreatePaymentRequest.Provider := ProviderType_UNSPECIFIED;
     CreatePaymentRequest.RecurringInterval := "";
     CreatePaymentRequest.RecurringIntervalCount := 0;
     CreatePaymentRequest.StatusCallbackUrl := "https://caller.example/callback";
     CreatePaymentRequest.SuccessUrl := "";
     CreatePaymentRequest.CancelUrl := "";
     CreatePaymentRequest.Metadata := [] |}.

(** The request of [TestCreatePaymentIdempotentByRequestIDAndCallerService]. *)
Definition testCreateRequest : CreatePaymentRequest.t :=
  testCreateRequestFor "req-1" "subscriptions-service".

(** A stored payment whose delivery is pending and due at [nextAt]. *)
Definition dueForDelivery (nextAt : Z) (payment : Payment.t) : Payment.t :=
  Payment.set_CallbackDeliveryNextAt (Some nextAt)
    (Payment.set_CallbackDeliveryStatus CallbackDeliveryPending payment).

(** [repo.payments[1] = payment] on fresh repositories. *)
Definition worldWith (payment : Payment.t) : TestWorld.t :=
  {| TestWorld.repo :=
       {| servicePaymentRepo.payments := [(Payment.ID payment, payment)];
          servicePaymentRepo.nextID := 1 |};
     TestWorld.events := [];
     TestWorld.callbacks := [] |}.

(** The provider double answering every callback with the given event type
    and mapped status. *)
Definition providerWithEvent (eventType : string) (newStatus : Z) : serviceProvider.t :=
  {| serviceProvider.createOutput := None;
     serviceProvider.createErr := None;
     serviceProvider.callbackEvt :=
       Some {| CallbackEvent.ProviderEventID := None;
               CallbackEvent.ProviderPaymentID := None;
               CallbackEvent.ProviderSubscriptionID := None;
               CallbackEvent.EventType := eventType;
               CallbackEvent.NewStatus := newStatus |};
     serviceProvider.callbackErr := None;
     serviceProvider.reconcile := 0;
     serviceProvider.reconcileErr := None |}.

(** The provider double whose poll answers [status]. *)
Definition providerWithReconcile (status : Z) : serviceProvider.t :=
  {| serviceProvider.createOutput := None;
     serviceProvider.createErr := None;
     serviceProvider.callbackEvt := None;
     serviceProvider.callbackErr := None;
     serviceProvider.reconcile := status;
     serviceProvider.reconcileErr := None |}.

(** The provider double that refuses every callback signature. *)
Definition providerRejecting (message : string) : serviceProvider.t :=
  {| serviceProvider.createOutput := None;
     serviceProvider.createErr := None;
     serviceProvider.callbackEvt := None;
     serviceProvider.callbackErr := Some (Opaque message);
     serviceProvider.reconcile := 0;
     serviceProvider.reconcileErr := None |}.

(** The webhook request of the unit tests. *)
Definition testCallbackRequest (providerTag : string) : HandleProviderCallbackRequest.t :=
  {| HandleProviderCallbackRequest.RequestId := "cb-1";
     HandleProviderCallbackRequest.Provider := providerTag;
     HandleProviderCallbackRequest.CallbackHash := "hash-1";
     HandleProviderCallbackRequest.Signature := "valid-signature";
     HandleProviderCallbackRequest.Payload := "payload" |}.

(** The row of the payment with id [id] in the in-memory repository. *)
Definition stored (w : TestWorld.t) (id : Z) : option Payment.t :=
  zmap_get (servicePaymentRepo.payments (TestWorld.repo w)) id.

(** Run an operation from a world with an empty trace. *)
Definition run {W A : Type} (m : M W A) (w : W) : A * State W :=
  m {| world := w; trace := [] |}.

(* ===================================================================== *)
(** * Vocabulary of the properties *)
(* ===================================================================== *)

(** The delivery sub-state of [p] is armed at [now]:
    PENDING, no attempt yet, due at [now], no recorded error. *)
Definition armed (p : Payment.t) (now : Z) : Prop :=
  Payment.CallbackDeliveryStatus p = CallbackDeliveryPending
  /\ Payment.CallbackDeliveryAttempts p = 0
  /\ Payment.CallbackDeliveryNextAt p = Some now
  /\ Payment.CallbackDeliveryLastErr p = None.

(** The delivery sub-state of [q] is the one of [p]. *)
Definition sameDelivery (p q : Payment.t) : Prop :=
  Payment.CallbackDeliveryStatus q = Payment.CallbackDeliveryStatus p
  /\ Payment.CallbackDeliveryAttempts q = Payment.CallbackDeliveryAttempts p
  /\ Payment.CallbackDeliveryNextAt q = Payment.CallbackDeliveryNextAt p
  /\ Payment.CallbackDeliveryLastErr q = Payment.CallbackDeliveryLastErr p.

(** The [PaymentCallback] rows handed to the callback repository by a list
    of calls. *)
Fixpoint callbackRows (calls : list Call) : list PaymentCallback.t :=
  match calls with
  | [] => []
  | CallbackCreate c :: rest => c :: callbackRows rest
  | _ :: rest => callbackRows rest
  end.

(** The events handed to the event repository by a list of calls. *)
Fixpoint eventRows (calls : list Call) : list PaymentEvent.t :=
  match calls with
  | [] => []
  | EventCreate e :: rest => e :: eventRows rest
  | _ :: rest => eventRows rest
  end.

(** The payments handed to [paymentRepo.Create] or [paymentRepo.Update]. *)
Fixpoint paymentWrites (calls : list Call) : list Payment.t :=
  match calls with
  | [] => []
  | PaymentCreate p :: rest => p :: paymentWrites rest
  | PaymentUpdate p :: rest => p :: paymentWrites rest
  | _ :: rest => paymentWrites rest
  end.

Definition isProviderCall (c : Call) : bool :=
  match c with
  | ProviderCreatePayment _ _
  | ProviderVerifyAndParseCallback _ _ _
  | ProviderGetPaymentStatus _ _ => true
  | _ => false
  end.

(** Every call that [m] adds to the trace satisfies [Q]. *)
Definition emits {W A : Type} (Q : Call -> Prop) (m : M W A) : Prop :=
  forall st, exists delta,
    trace (snd (m st)) = (delta ++ trace st)%list /\ Forall Q delta.

(** A payment write carries the status [status] and an armed delivery
    sub-state. *)
Definition armedWriteOf (status now : Z) (c : Call) : Prop :=
  match c with
  | PaymentCreate q | PaymentUpdate q => Payment.Status q = status /\ armed q now
  | _ => True
  end.

(** A payment write that carries a terminal status carries an armed
    delivery sub-state. *)
Definition armedWrite (now : Z) (c : Call) : Prop :=
  match c with
  | PaymentCreate q | PaymentUpdate q =>
      terminalStatus (Payment.Status q) = true -> armed q now
  | _ => True
  end.

(* ===================================================================== *)
(** * The embedding on concrete inputs *)
(* ===================================================================== *)

Example TrimSpace_tabs_and_newlines :
  strings.TrimSpace (String (ascii_of_N 9) "  Stripe " ++ String (ascii_of_N 10) "")
  = "Stripe".
Proof. reflexivity. Qed.

Example TrimSpace_blank : strings.TrimSpace "   " = "".
Proof. reflexivity. Qed.

Example TrimSpace_unicode_spaces :
  strings.TrimSpace
    (string_of_list_ascii (strings.bytes [194; 160; 97; 32; 98; 226; 128; 168]%N))
  = "a b".
Proof. reflexivity. Qed.

Example ToLower_ascii u : strings.ToLower u "STRIPE-1" = "stripe-1".
Proof. reflexivity. Qed.

Example Itoa_values :
  strings.Itoa 500 = "500" /\ strings.Itoa (-7) = "-7" /\ strings.Itoa 0 = "0".
Proof. repeat split; reflexivity. Qed.

Example wrap32_values :
  wrap32 5 = 5 /\ wrap32 (2147483647 + 1) = -2147483648.
Proof. split; reflexivity. Qed.

(** The unit tests of the service, replayed on the embedding. *)

Example TestCreatePaymentIdempotentByRequestIDAndCallerService :
  let s := newPaymentServiceForTest serviceProvider.zero (callbackServer 200) in
  let first := run (CreatePayment s 100 "hash-1" testCreateRequest) TestWorld.empty in
  let second := run (CreatePayment s 200 "hash-2" testCreateRequest) (world (snd first)) in
  fst second = fst first
  /\ (exists payment, fst first = Ok payment
                      /\ Payment.ID payment = 1 /\ Payment.Currency payment = "USD")
  /\ List.length (servicePaymentRepo.payments (TestWorld.repo (world (snd second)))) = 1%nat
  /\ List.length (TestWorld.events (world (snd second))) = 1%nat.
Proof. vm_compute. repeat split. eexists. repeat split. Qed.

Example TestCreatePaymentRequiresRequestIDAndCallerService :
  let s := newPaymentServiceForTest serviceProvider.zero (callbackServer 200) in
  fst (run (CreatePayment s 100 "hash-1" (testCreateRequestFor "" "")) TestWorld.empty)
  = Err ErrInvalidRequest.
Proof. reflexivity. Qed.

Example TestCancelPaymentPaidIsInvalidStatus :
  let s := newPaymentServiceForTest serviceProvider.zero (callbackServer 200) in
  let outcome :=
    run (CancelPayment s 100 {| CancelPaymentRequest.Id := 1;
                                CancelPaymentRequest.Reason := "duplicate" |})
      (worldWith (testPayment PaymentStatus_PAID 0)) in
  exists err, fst outcome = Err err /\ errors_Is err ErrInvalidStatus = true.
Proof. eexists. split; reflexivity. Qed.

Example TestHandleProviderCallbackUpdatesStatusAndStoresCallback :
  let s :=
    newPaymentServiceForTest
      (providerWithEvent "checkout.session.completed" PaymentStatus_PAID)
      (callbackServer 200) in
  let outcome :=
    run (HandleProviderCallback s 100 (testCallbackRequest "stripe"))
      (worldWith (testPayment PaymentStatus_PENDING 0)) in
  (exists payment, fst outcome = Ok payment /\ Payment.Status payment = PaymentStatus_PAID)
  /\ map PaymentCallback.Status (TestWorld.callbacks (world (snd outcome)))
     = [paymentCallbackStatusProcessed]
  /\ map PaymentEvent.EventType (TestWorld.events (world (snd outcome)))
     = ["checkout.session.completed"]
  /\ map PaymentEvent.OldStatus (TestWorld.events (world (snd outcome)))
     = [Some PaymentStatus_PENDING].
Proof. vm_compute. repeat split. eexists. repeat split. Qed.

Example TestRunExpirePendingBatchMarksExpired :
  let s := newPaymentServiceForTest serviceProvider.zero (callbackServer 200) in
  let now := 7200 * time_Second in
  let outcome := run (RunExpirePendingBatch s now) (worldWith (testPayment PaymentStatus_PENDING 0)) in
  fst outcome = None
  /\ option_map Payment.Status (stored (world (snd outcome)) 1) = Some PaymentStatus_EXPIRED
  /\ option_map Payment.CallbackDeliveryStatus (stored (world (snd outcome)) 1)
     = Some CallbackDeliveryPending
  /\ map PaymentEvent.EventType (TestWorld.events (world (snd outcome))) = ["payment_expired"].
Proof. vm_compute. repeat split. Qed.

Example TestRunReconcileBatchUpdatesTerminalStatus :
  let s := newPaymentServiceForTest (providerWithReconcile PaymentStatus_PAID)
             (callbackServer 200) in
  let now := 7200 * time_Second in
  let payment :=
    Payment.set_ProviderPaymentID (Some "cs_test_123") (testPayment PaymentStatus_PENDING 0) in
  let outcome := run (RunReconcileBatch s now) (worldWith payment) in
  fst outcome = None
  /\ option_map Payment.Status (stored (world (snd outcome)) 1) = Some PaymentStatus_PAID
  /\ option_map Payment.CallbackDeliveryNextAt (stored (world (snd outcome)) 1)
     = Some (Some now).
Proof. vm_compute. repeat split. Qed.

Example TestRunDispatchCallbacksBatchSuccess :
  let s := newPaymentServiceForTest serviceProvider.zero (callbackServer 200) in
  let now := 7200 * time_Second in
  let payment := dueForDelivery (now - time_Second) (testPayment PaymentStatus_PAID 0) in
  let outcome := run (RunDispatchCallbacksBatch s now) (worldWith payment) in
  fst outcome = None
  /\ option_map Payment.CallbackDeliveryStatus (stored (world (snd outcome)) 1)
     = Some CallbackDeliverySuccess
  /\ (exists req rest, trace (snd outcome) = EventCreate
                         (lifecycleEvent 1 "callback_dispatched" None PaymentStatus_PAID now)
                       :: rest
                     /\ In (HttpDo req) rest
                     /\ In ("X-Request-ID", "req-1") (HttpRequest.Header req)).
Proof.
  vm_compute. repeat split.
  eexists. eexists. split; [reflexivity|].
  split; [right; left; reflexivity|]. right. left. reflexivity.
Qed.

Example TestRunDispatchCallbacksBatchFailureMarksFailed :
  let s := serviceForTest singleAttemptConfig serviceProvider.zero (callbackServer 500) in
  let now := 7200 * time_Second in
  let payment := dueForDelivery (now - time_Second) (testPayment PaymentStatus_FAILED 0) in
  let outcome := run (RunDispatchCallbacksBatch s now) (worldWith payment) in
  fst outcome = Some (Opaque "callback endpoint returned status=500")
  /\ option_map Payment.CallbackDeliveryStatus (stored (world (snd outcome)) 1)
     = Some CallbackDeliveryFailed
  /\ option_map Payment.CallbackDeliveryAttempts (stored (world (snd outcome)) 1) = Some 1
  /\ option_map Payment.CallbackDeliveryLastErr (stored (world (snd outcome)) 1)
     = Some (Some "callback endpoint returned status=500").
Proof. vm_compute. repeat split. Qed.

(* ===================================================================== *)
(** * Basic facts *)
(* ===================================================================== *)

Lemma string_eqb_false (a b : string) : a <> b -> (a =? b)%string = false.
Proof. intro H. apply String.eqb_neq. exact H. Qed.

Lemma wrap32_id (z : Z) : - 2 ^ 31 <= z < 2 ^ 31 -> wrap32 z = z.
Proof.
  intro H. unfold wrap32.
  rewrite Z.mod_small by lia. lia.
Qed.

Lemma markForCallbackDelivery_armed (p : Payment.t) (now : Z) :
  armed (markForCallbackDelivery p now) now.
Proof. repeat split. Qed.

Lemma markForCallbackDelivery_Status (p : Payment.t) (now : Z) :
  Payment.Status (markForCallbackDelivery p now) = Payment.Status p.
Proof. reflexivity. Qed.

(** [terminalStatus] holds exactly of PAID, FAILED, CANCELED and EXPIRED. *)
Lemma terminalStatus_spec (status : Z) :
  terminalStatus status = true <->
  status = PaymentStatus_PAID \/ status = PaymentStatus_FAILED
  \/ status = PaymentStatus_CANCELED \/ status = PaymentStatus_EXPIRED.
Proof.
  unfold terminalStatus.
  rewrite !Bool.orb_true_iff, !Z.eqb_eq. tauto.
Qed.

(* ===================================================================== *)
(** * C10: resolution of the provider route tag *)
(* ===================================================================== *)

(** C10.  [parseProviderCode] matches the trimmed, lower-cased route tag:
    the tags "stripe" and "1" (whatever their case and surrounding white
    space) resolve to the Stripe provider code, and for every request whose
    normalised tag is neither, [HandleProviderCallback] returns
    [ErrProviderUnsupported] without calling any collaborator: no signature
    verification, no PaymentCallback row, the world is untouched. *)
Theorem C10_provider_tag_resolution :
  forall (W : Type) (s : PaymentService.t W) (now : Z)
         (req : HandleProviderCallbackRequest.t) (st : State W),
    let rt := PaymentService.runtime s in
    let tag := ToLower rt (strings.TrimSpace (HandleProviderCallbackRequest.Provider req)) in
    parseProviderCode rt "stripe" = Ok ProviderType_STRIPE
    /\ parseProviderCode rt "1" = Ok ProviderType_STRIPE
    /\ (tag = "stripe" \/ tag = "1" ->
        parseProviderCode rt (HandleProviderCallbackRequest.Provider req)
        = Ok ProviderType_STRIPE)
    /\ (tag <> "stripe" -> tag <> "1" ->
        parseProviderCode rt (HandleProviderCallbackRequest.Provider req)
        = Err provider_ErrProviderNotSupported
        /\ HandleProviderCallback s now req st = (Err ErrProviderUnsupported, st)).
Proof.
  intros W s now req st rt tag.
  split; [reflexivity|]. split; [reflexivity|]. split.
  - intros [H | H]; unfold parseProviderCode; fold rt; fold tag; rewrite H; reflexivity.
  - intros H1 H2.
    assert (Hp : parseProviderCode rt (HandleProviderCallbackRequest.Provider req)
                 = Err provider_ErrProviderNotSupported).
    { unfold parseProviderCode. fold tag.
      rewrite (string_eqb_false H1), (string_eqb_false H2). reflexivity. }
    split; [exact Hp|].
    unfold HandleProviderCallback. fold rt. rewrite Hp. reflexivity.
Qed.

(* ===================================================================== *)
(** * C7: dispatching a payment without callback URL *)
(* ===================================================================== *)

(** C7.  When the dispatcher is invoked on a payment whose
    [status_callback_url] is empty (or blank), it hands to
    [paymentRepo.Update] the payment with delivery status FAILED, no due
    time, last error "status_callback_url is empty" and [updated_at = now];
    the update is its only call (no HTTP request, no dispatch event) and its
    answer is the answer of the dispatcher. *)
Theorem C7_empty_callback_url_is_terminal_failure :
  forall (W : Type) (s : PaymentService.t W) (payment : Payment.t) (now : Z) (st : State W),
    strings.TrimSpace (Payment.StatusCallbackURL payment) = "" ->
    exists updated : Payment.t,
      Payment.CallbackDeliveryStatus updated = CallbackDeliveryFailed
      /\ Payment.CallbackDeliveryNextAt updated = None
      /\ Payment.CallbackDeliveryLastErr updated = Some "status_callback_url is empty"
      /\ Payment.UpdatedAt updated = now
      /\ Payment.ID updated = Payment.ID payment
      /\ Payment.Status updated = Payment.Status payment
      /\ Payment.CallbackDeliveryAttempts updated = Payment.CallbackDeliveryAttempts payment
      /\ fst (dispatchCallback s payment now st)
         = fst (paymentRepository.Update (PaymentService.paymentRepo s) updated (world st))
      /\ world (snd (dispatchCallback s payment now st))
         = snd (paymentRepository.Update (PaymentService.paymentRepo s) updated (world st))
      /\ trace (snd (dispatchCallback s payment now st)) = PaymentUpdate updated :: trace st
      /\ eventRows (trace (snd (dispatchCallback s payment now st))) = eventRows (trace st).
Proof.
  intros W s payment now st Hurl.
  set (updated :=
         Payment.set_UpdatedAt now
           (Payment.set_CallbackDeliveryLastErr (Some "status_callback_url is empty")
              (Payment.set_CallbackDeliveryNextAt None
                 (Payment.set_CallbackDeliveryStatus CallbackDeliveryFailed payment)))).
  assert (Hrun :
    dispatchCallback s payment now st
    = call (PaymentUpdate updated)
           (paymentRepository.Update (PaymentService.paymentRepo s) updated) st).
  { unfold dispatchCallback. rewrite Hurl. reflexivity. }
  exists updated. rewrite Hrun. unfold call.
  destruct (paymentRepository.Update (PaymentService.paymentRepo s) updated (world st)).
  repeat split.
Qed.

(* ===================================================================== *)
(** * C2: idempotent creation *)
(* ===================================================================== *)

(** The short-circuit of [CreatePayment]: when the lookup by idempotency key
    answers with a stored payment, that payment is the result and the
    lookup is the only call. *)
Lemma CreatePayment_existing :
  forall (W : Type) (s : PaymentService.t W) (now : Z) (uuid : string)
         (req : CreatePaymentRequest.t) (st : State W) (existing : Payment.t) (w1 : W),
    strings.TrimSpace (CreatePaymentRequest.RequestId req) <> "" ->
    strings.TrimSpace (CreatePaymentRequest.CallerService req) <> "" ->
    paymentRepository.FindByCallerRequestID (PaymentService.paymentRepo s)
      (strings.TrimSpace (CreatePaymentRequest.CallerService req))
      (strings.TrimSpace (CreatePaymentRequest.RequestId req)) (world st)
    = (Ok (Some existing), w1) ->
    CreatePayment s now uuid req st
    = (Ok existing,
       {| world := w1;
          trace := PaymentFindByCallerRequestID
                     (strings.TrimSpace (CreatePaymentRequest.CallerService req))
                     (strings.TrimSpace (CreatePaymentRequest.RequestId req)) :: trace st |}).
Proof.
  intros W s now uuid req st existing w1 Hrid Hcs Hfind.
  unfold CreatePayment.
  rewrite (string_eqb_false Hrid), (string_eqb_false Hcs). cbn [orb].
  unfold bind, call. rewrite Hfind. reflexivity.
Qed.

(** With the in-memory repository of the tests: a successful [Create] makes
    the inserted payment the answer of the lookup by its key. *)
Lemma servicePaymentRepo_find_after_create :
  forall (payment : Payment.t) (r r' : servicePaymentRepo.t) (id : Z),
    servicePaymentRepo.Create payment r = (Ok id, r') ->
    servicePaymentRepo.FindByCallerRequestID
      (Payment.CallerService payment) (Payment.RequestID payment) r'
    = (Ok (Some (Payment.set_ID id payment)), r').
Proof.
  intros payment r r' id. unfold servicePaymentRepo.Create.
  destruct (existsb _ _) eqn:Hex; [discriminate|].
  intro H. inversion H; subst; clear H.
  unfold servicePaymentRepo.FindByCallerRequestID. cbn [servicePaymentRepo.payments].
  f_equal. f_equal.
  set (key := fun kv : Z * Payment.t =>
                servicePaymentRepo.sameKey (Payment.CallerService payment)
                  (Payment.RequestID payment) (snd kv)) in *.
  assert (Hnew : key (servicePaymentRepo.nextID r,
                      Payment.set_ID (servicePaymentRepo.nextID r) payment) = true).
  { unfold key, servicePaymentRepo.sameKey. cbn. now rewrite !String.eqb_refl. }
  generalize dependent (servicePaymentRepo.nextID r). intros id Hnew.
  induction (servicePaymentRepo.payments r) as [|[k v] m IH]; cbn in *.
  - rewrite Hnew. reflexivity.
  - apply Bool.orb_false_iff in Hex. destruct Hex as [Hv Hm].
    change (key (k, v) = false) in Hv.
    destruct (k =? id); cbn.
    + rewrite Hnew. reflexivity.
    + rewrite Hv. apply IH. exact Hm.
Qed.

(** Two requests with the same key against the in-memory repositories of the
    tests, whatever the provider does: when the first call succeeds, the
    second returns the very same payment and leaves the world as it is. *)
Lemma CreatePayment_twice_in_memory :
  forall (s : PaymentService.t TestWorld.t) (now1 now2 : Z) (uuid1 uuid2 : string)
         (req1 req2 : CreatePaymentRequest.t) (st st1 : State TestWorld.t)
         (payment : Payment.t),
    PaymentService.paymentRepo s = TestWorld.paymentRepo ->
    PaymentService.eventRepo s = TestWorld.eventRepo ->
    strings.TrimSpace (CreatePaymentRequest.RequestId req2)
    = strings.TrimSpace (CreatePaymentRequest.RequestId req1) ->
    strings.TrimSpace (CreatePaymentRequest.CallerService req2)
    = strings.TrimSpace (CreatePaymentRequest.CallerService req1) ->
    CreatePayment s now1 uuid1 req1 st = (Ok payment, st1) ->
    CreatePayment s now2 uuid2 req2 st1
    = (Ok payment,
       {| world := world st1;
          trace := PaymentFindByCallerRequestID
                     (strings.TrimSpace (CreatePaymentRequest.CallerService req2))
                     (strings.TrimSpace (CreatePaymentRequest.RequestId req2)) :: trace st1 |}).
Proof.
  intros s now1 now2 uuid1 uuid2 req1 req2 st st1 payment Hrepo Hev Hrid Hcs Hfirst.
  assert (Hkeys : strings.TrimSpace (CreatePaymentRequest.RequestId req1) <> ""
                  /\ strings.TrimSpace (CreatePaymentRequest.CallerService req1) <> "").
  { unfold CreatePayment in Hfirst.
    destruct (strings.TrimSpace (CreatePaymentRequest.RequestId req1) =? "")%string eqn:E1;
      [discriminate|].
    destruct (strings.TrimSpace (CreatePaymentRequest.CallerService req1) =? "")%string eqn:E2;
      [discriminate|].
    split; apply String.eqb_neq; assumption. }
  destruct Hkeys as [Hk1 Hk2].
  apply CreatePayment_existing; [rewrite Hrid; exact Hk1 | rewrite Hcs; exact Hk2 |].
  rewrite Hrid, Hcs.
  unfold CreatePayment in Hfirst.
  rewrite (string_eqb_false Hk1), (string_eqb_false Hk2) in Hfirst. cbn [orb] in Hfirst.
  rewrite Hrepo, Hev in *.
  unfold bind, call in Hfirst.
  cbn [paymentRepository.FindByCallerRequestID TestWorld.paymentRepo TestWorld.onRepo
       servicePaymentRepo.FindByCallerRequestID world trace] in Hfirst.
  cbn [paymentRepository.FindByCallerRequestID TestWorld.paymentRepo TestWorld.onRepo
       servicePaymentRepo.FindByCallerRequestID].
  destruct (find _ (servicePaymentRepo.payments (TestWorld.repo (world st)))) as [[k v]|] eqn:Hfind;
    cbn [option_map snd] in Hfirst.
  - (* the first call already hit the short-circuit *)
    unfold ret in Hfirst. inversion Hfirst; subst; clear Hfirst.
    cbn [world TestWorld.repo]. rewrite Hfind. cbn [option_map snd].
    reflexivity.
  - (* the first call created the payment *)
    destruct (Registry.Get _ _) as [client|e]; [|match type of Hfirst with context [errors_Is ?e ?t] => destruct (errors_Is e t) end; discriminate].
    destruct (Provider.CreatePayment client _ _) as [[out|e] w1]; [|discriminate].
    match type of Hfirst with
    | context [paymentRepository.Create _ ?p _] => set (assembled := p) in *
    end.
    cbn [paymentRepository.Create TestWorld.paymentRepo TestWorld.onRepo world trace] in Hfirst.
    unfold TestWorld.onRepo in Hfirst.
    destruct (servicePaymentRepo.Create assembled (TestWorld.repo w1)) as [[id|e] r'] eqn:Hcreate;
      [|match type of Hfirst with context [errors_Is ?e ?t] => destruct (errors_Is e t) end; discriminate].
    cbn [paymentEventRepository.Create TestWorld.eventRepo world trace] in Hfirst.
    unfold ret in Hfirst. inversion Hfirst; subst; clear Hfirst.
    cbn [world TestWorld.repo TestWorld.events TestWorld.callbacks].
    pose proof (servicePaymentRepo_find_after_create assembled (TestWorld.repo w1) Hcreate)
      as Hafter.
    unfold servicePaymentRepo.FindByCallerRequestID in Hafter.
    assert (Hcs' : Payment.CallerService assembled
                   = strings.TrimSpace (CreatePaymentRequest.CallerService req1)).
    { unfold assembled. destruct (terminalStatus _); reflexivity. }
    assert (Hrid' : Payment.RequestID assembled
                    = strings.TrimSpace (CreatePaymentRequest.RequestId req1)).
    { unfold assembled. destruct (terminalStatus _); reflexivity. }
    rewrite Hcs', Hrid' in Hafter.
    inversion Hafter as [Hopt]. rewrite Hopt. reflexivity.
Qed.

(** C2.  A [CreatePayment] request whose (caller_service, request_id) key is
    already stored returns the stored payment as it is (same id, identical
    contents); its only call is the lookup by key: no provider call, no
    payment row inserted or updated, no event emitted.  In particular, for
    every pair of requests with the same key run one after the other against
    the in-memory repositories, once the first has succeeded the second
    returns the same payment and leaves repositories and event log as they
    are. *)
Theorem C2_create_payment_is_idempotent :
  (forall (W : Type) (s : PaymentService.t W) (now : Z) (uuid : string)
          (req : CreatePaymentRequest.t) (st : State W) (existing : Payment.t) (w1 : W),
      let requestID := strings.TrimSpace (CreatePaymentRequest.RequestId req) in
      let callerService := strings.TrimSpace (CreatePaymentRequest.CallerService req) in
      requestID <> "" ->
      callerService <> "" ->
      paymentRepository.FindByCallerRequestID (PaymentService.paymentRepo s)
        callerService requestID (world st) = (Ok (Some existing), w1) ->
      let st' := snd (CreatePayment s now uuid req st) in
      fst (CreatePayment s now uuid req st) = Ok existing
      /\ world st' = w1
      /\ trace st' = PaymentFindByCallerRequestID callerService requestID :: trace st
      /\ filter isProviderCall (trace st') = filter isProviderCall (trace st)
      /\ paymentWrites (trace st') = paymentWrites (trace st)
      /\ eventRows (trace st') = eventRows (trace st))
  /\ (forall (s : PaymentService.t TestWorld.t) (now1 now2 : Z) (uuid1 uuid2 : string)
             (req1 req2 : CreatePaymentRequest.t) (st st1 : State TestWorld.t)
             (payment : Payment.t),
         PaymentService.paymentRepo s = TestWorld.paymentRepo ->
         PaymentService.eventRepo s = TestWorld.eventRepo ->
         strings.TrimSpace (CreatePaymentRequest.RequestId req2)
         = strings.TrimSpace (CreatePaymentRequest.RequestId req1) ->
         strings.TrimSpace (CreatePaymentRequest.CallerService req2)
         = strings.TrimSpace (CreatePaymentRequest.CallerService req1) ->
         CreatePayment s now1 uuid1 req1 st = (Ok payment, st1) ->
         CreatePayment s now2 uuid2 req2 st1
         = (Ok payment,
            {| world := world st1;
               trace := PaymentFindByCallerRequestID
                          (strings.TrimSpace (CreatePaymentRequest.CallerService req2))
                          (strings.TrimSpace (CreatePaymentRequest.RequestId req2))
                        :: trace st1 |})).
Proof.
  split.
  - intros W s now uuid req st existing w1 requestID callerService Hrid Hcs Hfind st'.
    subst st'. rewrite (CreatePayment_existing s now uuid req st Hrid Hcs Hfind).
    repeat split.
  - intros. eapply CreatePayment_twice_in_memory; eassumption.
Qed.

(* ===================================================================== *)
(** * C5: CancelPayment *)
(* ===================================================================== *)

(** C5.  [CancelPayment(id, reason)], once the load by id has answered:
    - no payment with that id: [ErrPaymentNotFound], nothing else is called;
    - a PAID payment: an error that is [ErrInvalidStatus] and whose message
      contains "paid payments cannot be canceled", nothing else is called;
    - otherwise the payment handed to [Update] has status CANCELED, an armed
      delivery sub-state and [updated_at = now]; when the update reports
      that the row is missing the result is [ErrPaymentNotFound] and no
      event is emitted; when it succeeds exactly one [payment_canceled]
      event carrying the old status is emitted and the updated payment is
      returned.  No provider is ever called. *)
Theorem C5_cancel_payment :
  forall (W : Type) (s : PaymentService.t W) (now : Z) (req : CancelPaymentRequest.t)
         (st : State W) (found : option Payment.t) (w1 : W),
    paymentRepository.FindByID (PaymentService.paymentRepo s)
      (CancelPaymentRequest.Id req) (world st) = (Ok found, w1) ->
    let loaded := PaymentFindByID (CancelPaymentRequest.Id req) :: trace st in
    match found with
    | None =>
        CancelPayment s now req st
        = (Err ErrPaymentNotFound, {| world := w1; trace := loaded |})
    | Some payment =>
        if Payment.Status payment =? PaymentStatus_PAID
        then
          exists err : error,
            CancelPayment s now req st = (Err err, {| world := w1; trace := loaded |})
            /\ errors_Is err ErrInvalidStatus = true
            /\ strings.Contains (Error err) "paid payments cannot be canceled" = true
        else
          exists updated : Payment.t,
            Payment.Status updated = PaymentStatus_CANCELED
            /\ armed updated now
            /\ Payment.UpdatedAt updated = now
            /\ Payment.ID updated = Payment.ID payment
            /\ forall (answer : option error) (w2 : W),
                paymentRepository.Update (PaymentService.paymentRepo s) updated w1
                = (answer, w2) ->
                match answer with
                | Some err =>
                    errors_Is err repository_ErrPaymentNotFound = true ->
                    CancelPayment s now req st
                    = (Err ErrPaymentNotFound,
                       {| world := w2; trace := PaymentUpdate updated :: loaded |})
                | None =>
                    let event :=
                      lifecycleEvent (Payment.ID payment) "payment_canceled"
                        (Some (Payment.Status payment)) PaymentStatus_CANCELED now in
                    forall (ignored : option error) (w3 : W),
                      paymentEventRepository.Create (PaymentService.eventRepo s) event w2
                      = (ignored, w3) ->
                      CancelPayment s now req st
                      = (Ok updated,
                         {| world := w3;
                            trace := EventCreate event :: PaymentUpdate updated :: loaded |})
                      /\ filter isProviderCall (EventCreate event :: PaymentUpdate updated
                                                  :: [PaymentFindByID (CancelPaymentRequest.Id req)])
                         = []
                end
    end.
Proof.
  intros W s now req st found w1 Hfind loaded.
  unfold CancelPayment, bind, call. rewrite Hfind.
  destruct found as [payment|]; [|reflexivity].
  destruct (Payment.Status payment =? PaymentStatus_PAID) eqn:Hpaid.
  - eexists. split; [reflexivity|]. split; reflexivity.
  - exists (Payment.set_UpdatedAt now
              (markForCallbackDelivery
                 (Payment.set_Status PaymentStatus_CANCELED payment) now)).
    split; [reflexivity|]. split; [repeat split|].
    split; [reflexivity|]. split; [reflexivity|].
    intros answer w2 Hupd. cbn [world trace]. rewrite Hupd.
    destruct answer as [err|]; cbv beta iota.
    + intro His. rewrite His. reflexivity.
    + intros ignored w3 Hev. cbn [world trace].
      split; [|reflexivity].
      unfold ret.
      change (paymentEventRepository.Create (PaymentService.eventRepo s) _ w2)
        with (paymentEventRepository.Create (PaymentService.eventRepo s)
                (lifecycleEvent (Payment.ID payment) "payment_canceled"
                   (Some (Payment.Status payment)) PaymentStatus_CANCELED now) w2).
      rewrite Hev. reflexivity.
Qed.

(* ===================================================================== *)
(** * C6: bookkeeping of a failed delivery attempt *)
(* ===================================================================== *)

Lemma substring_0_length (n : nat) (s : string) :
  (String.length (substring 0 n s) <= n)%nat.
Proof.
  revert s. induction n as [|n IH]; intros [|c s]; cbn; try lia.
  specialize (IH s). lia.
Qed.

Lemma substring_0_prefix (n : nat) (s : string) :
  prefix (substring 0 n s) s = true.
Proof.
  revert s. induction n as [|n IH]; intros [|c s]; cbn; try reflexivity.
  destruct (ascii_dec c c) as [_|Hneq]; [apply IH | now elim Hneq].
Qed.

Lemma prefix_refl (s : string) : prefix s s = true.
Proof.
  induction s as [|c s IH]; cbn; [reflexivity|].
  destruct (ascii_dec c c) as [_|Hneq]; [exact IH | now elim Hneq].
Qed.

(** [truncate] keeps a prefix of at most [max] bytes. *)
Lemma truncate_spec (value : string) (max : Z) :
  0 <= max ->
  strings.len (truncate value max) <= max
  /\ prefix (truncate value max) value = true
  /\ (strings.len value <= max -> truncate value max = value).
Proof.
  intro Hmax. unfold truncate.
  destruct (strings.len value <=? max) eqn:Hle.
  - apply Z.leb_le in Hle. split; [exact Hle|]. split; [apply prefix_refl | reflexivity].
  - apply Z.leb_gt in Hle. split; [|split].
    + unfold strings.len. pose proof (substring_0_length (Z.to_nat max) value). lia.
    + apply substring_0_prefix.
    + lia.
Qed.

(** What [recordDispatchFailure] does: the bookkeeping of one failed attempt,
    in terms of the new ([int32]) attempt count. *)
Lemma recordDispatchFailure_spec :
  forall (W : Type) (s : PaymentService.t W) (payment : Payment.t) (now : Z)
         (dispatchErr : error) (st : State W),
    let cfg := PaymentService.paymentsCfg s in
    let maxAttempts := Z.max 1 (PaymentsConfig.CallbackMaxAttempts cfg) in
    let retryInterval :=
      if 0 <? PaymentsConfig.CallbackRetryInterval cfg
      then PaymentsConfig.CallbackRetryInterval cfg
      else 5 * time_Minute in
    let attempts := wrap32 (Payment.CallbackDeliveryAttempts payment + 1) in
    exists updated : Payment.t,
      Payment.CallbackDeliveryAttempts updated = attempts
      /\ Payment.CallbackDeliveryLastErr updated = Some (truncate (Error dispatchErr) 1024)
      /\ (if maxAttempts <=? attempts
          then Payment.CallbackDeliveryStatus updated = CallbackDeliveryFailed
               /\ Payment.CallbackDeliveryNextAt updated = None
          else Payment.CallbackDeliveryStatus updated = CallbackDeliveryPending
               /\ Payment.CallbackDeliveryNextAt updated = Some (now + retryInterval))
      /\ Payment.ID updated = Payment.ID payment
      /\ Payment.Status updated = Payment.Status payment
      /\ Payment.UpdatedAt updated = now
      /\ forall w2 : W,
          paymentRepository.Update (PaymentService.paymentRepo s) updated (world st)
          = (None, w2) ->
          forall (ignored : option error) (w3 : W),
            paymentEventRepository.Create (PaymentService.eventRepo s)
              (lifecycleEvent (Payment.ID payment) "callback_dispatch_failed" None
                 (Payment.Status payment) now) w2 = (ignored, w3) ->
            recordDispatchFailure s payment now dispatchErr st
            = (Some dispatchErr,
               {| world := w3;
                  trace := EventCreate
                             (lifecycleEvent (Payment.ID payment) "callback_dispatch_failed"
                                None (Payment.Status payment) now)
                           :: PaymentUpdate updated :: trace st |}).
Proof.
  intros W s payment now dispatchErr st cfg maxAttempts retryInterval attempts.
  set (base := Payment.set_CallbackDeliveryLastErr (Some (truncate (Error dispatchErr) 1024))
                 (Payment.set_CallbackDeliveryAttempts attempts payment)).
  set (event := lifecycleEvent (Payment.ID payment) "callback_dispatch_failed" None
                  (Payment.Status payment) now).
  assert (Hmax : (if PaymentsConfig.CallbackMaxAttempts cfg <=? 0 then 1
                  else PaymentsConfig.CallbackMaxAttempts cfg) = maxAttempts).
  { unfold maxAttempts. destruct (Z.leb_spec (PaymentsConfig.CallbackMaxAttempts cfg) 0); lia. }
  assert (Hretry : (if PaymentsConfig.CallbackRetryInterval cfg <=? 0 then 5 * time_Minute
                    else PaymentsConfig.CallbackRetryInterval cfg) = retryInterval).
  { unfold retryInterval.
    destruct (Z.leb_spec (PaymentsConfig.CallbackRetryInterval cfg) 0);
      destruct (Z.ltb_spec 0 (PaymentsConfig.CallbackRetryInterval cfg)); lia || reflexivity. }
  assert (Hrun : forall updated : Payment.t,
    updated
    = Payment.set_UpdatedAt now
        (if maxAttempts <=? attempts
         then Payment.set_CallbackDeliveryNextAt None
                (Payment.set_CallbackDeliveryStatus CallbackDeliveryFailed base)
         else Payment.set_CallbackDeliveryNextAt (Some (now + retryInterval))
                (Payment.set_CallbackDeliveryStatus CallbackDeliveryPending base)) ->
    forall w2 : W,
      paymentRepository.Update (PaymentService.paymentRepo s) updated (world st) = (None, w2) ->
      forall (ignored : option error) (w3 : W),
        paymentEventRepository.Create (PaymentService.eventRepo s) event w2 = (ignored, w3) ->
        recordDispatchFailure s payment now dispatchErr st
        = (Some dispatchErr,
           {| world := w3; trace := EventCreate event :: PaymentUpdate updated :: trace st |})).
  { intros updated Hupdated w2 Hupd ignored w3 Hev.
    unfold recordDispatchFailure. fold cfg. cbv zeta.
    cbn [Payment.CallbackDeliveryAttempts Payment.set_CallbackDeliveryLastErr
         Payment.set_CallbackDeliveryAttempts].
    fold attempts.
    rewrite Hmax, Hretry, Z.geb_leb. fold base.
    rewrite <- Hupdated.
    unfold bind, call, ret. rewrite Hupd. cbn [world trace].
    replace (lifecycleEvent (Payment.ID updated) "callback_dispatch_failed" None
               (Payment.Status updated) now) with event.
    - rewrite Hev. reflexivity.
    - subst updated event.
      destruct (maxAttempts <=? attempts); reflexivity. }
  exists (Payment.set_UpdatedAt now
            (if maxAttempts <=? attempts
             then Payment.set_CallbackDeliveryNextAt None
                    (Payment.set_CallbackDeliveryStatus CallbackDeliveryFailed base)
             else Payment.set_CallbackDeliveryNextAt (Some (now + retryInterval))
                    (Payment.set_CallbackDeliveryStatus CallbackDeliveryPending base))).
  repeat match goal with |- _ /\ _ => split end.
  7: apply Hrun; reflexivity.
  all: destruct (maxAttempts <=? attempts); try split; reflexivity.
Qed.

(** C6.  A delivery attempt fails when the transport reports an error or the
    endpoint answers with a status outside [200, 300).  Then the payment
    handed to [Update] has its attempt counter incremented by 1 (as an
    [int32]: [attempts + 1] below the largest value) and the error message
    cut to its first 1024 bytes as last error; it is FAILED without due time
    when the new count reaches [callback_max_attempts] (at least 1), and
    PENDING and due at [now + callback_retry_interval] (5 minutes when the
    interval is not positive) otherwise.  Once the update is stored, one
    [callback_dispatch_failed] event is emitted and the dispatcher returns
    the original error. *)
Theorem C6_failed_delivery_bookkeeping :
  forall (W : Type) (s : PaymentService.t W) (payment : Payment.t) (now : Z)
         (st : State W) (body : string) (resp : result Z) (w1 : W) (dispatchErr : error),
    let rt := PaymentService.runtime s in
    let cfg := PaymentService.paymentsCfg s in
    let req := callbackRequest s payment body in
    strings.TrimSpace (Payment.StatusCallbackURL payment) <> "" ->
    GoRuntime.marshalEnvelope rt payment = Ok body ->
    GoRuntime.newRequestError rt "POST" (Payment.StatusCallbackURL payment) = None ->
    PaymentService.callbackHTTP s req (world st) = (resp, w1) ->
    (resp = Err dispatchErr
     \/ exists statusCode : Z,
         resp = Ok statusCode
         /\ (statusCode < 200 \/ 300 <= statusCode)
         /\ dispatchErr
            = Opaque ("callback endpoint returned status=" ++ strings.Itoa statusCode)) ->
    let maxAttempts := Z.max 1 (PaymentsConfig.CallbackMaxAttempts cfg) in
    let retryInterval :=
      if 0 <? PaymentsConfig.CallbackRetryInterval cfg
      then PaymentsConfig.CallbackRetryInterval cfg
      else 5 * time_Minute in
    let event :=
      lifecycleEvent (Payment.ID payment) "callback_dispatch_failed" None
        (Payment.Status payment) now in
    exists updated : Payment.t,
      Payment.CallbackDeliveryAttempts updated
      = wrap32 (Payment.CallbackDeliveryAttempts payment + 1)
      /\ (- 2 ^ 31 <= Payment.CallbackDeliveryAttempts payment < 2 ^ 31 - 1 ->
          Payment.CallbackDeliveryAttempts updated
          = Payment.CallbackDeliveryAttempts payment + 1)
      /\ Payment.CallbackDeliveryLastErr updated = Some (truncate (Error dispatchErr) 1024)
      /\ strings.len (truncate (Error dispatchErr) 1024) <= 1024
      /\ prefix (truncate (Error dispatchErr) 1024) (Error dispatchErr) = true
      /\ (if maxAttempts <=? Payment.CallbackDeliveryAttempts updated
          then Payment.CallbackDeliveryStatus updated = CallbackDeliveryFailed
               /\ Payment.CallbackDeliveryNextAt updated = None
          else Payment.CallbackDeliveryStatus updated = CallbackDeliveryPending
               /\ Payment.CallbackDeliveryNextAt updated = Some (now + retryInterval))
      /\ Payment.ID updated = Payment.ID payment
      /\ Payment.Status updated = Payment.Status payment
      /\ Payment.UpdatedAt updated = now
      /\ forall w2 : W,
          paymentRepository.Update (PaymentService.paymentRepo s) updated w1 = (None, w2) ->
          forall (ignored : option error) (w3 : W),
            paymentEventRepository.Create (PaymentService.eventRepo s) event w2
            = (ignored, w3) ->
            dispatchCallback s payment now st
            = (Some dispatchErr,
               {| world := w3;
                  trace := EventCreate event :: PaymentUpdate updated
                           :: HttpDo req :: trace st |}).
Proof.
  intros W s payment now st body resp w1 dispatchErr rt cfg req
         Hurl Hmarshal Hnew Hdo Hfail maxAttempts retryInterval event.
  destruct (recordDispatchFailure_spec s payment now dispatchErr
              {| world := w1; trace := HttpDo req :: trace st |})
    as (updated & Hatt & Herr & Hsched & Hid & Hstatus & Hat & Hrun).
  exists updated.
  destruct (@truncate_spec (Error dispatchErr) 1024) as (Hlen & Hpre & _); [lia|].
  split; [exact Hatt|].
  split; [intro Hrange; rewrite Hatt; apply wrap32_id; lia|].
  split; [exact Herr|]. split; [exact Hlen|]. split; [exact Hpre|].
  split; [rewrite Hatt; exact Hsched|].
  split; [exact Hid|]. split; [exact Hstatus|]. split; [exact Hat|].
  intros w2 Hupd ignored w3 Hev.
  cbn [world trace] in Hrun. specialize (Hrun w2 Hupd ignored w3 Hev).
  unfold dispatchCallback. fold rt.
  rewrite (string_eqb_false Hurl), Hmarshal, Hnew.
  fold req. unfold bind at 1. unfold call at 1. rewrite Hdo.
  destruct Hfail as [-> | (statusCode & -> & Hcode & ->)].
  - exact Hrun.
  - assert (Hout : (statusCode <? 200) || (statusCode >=? 300) = true).
    { rewrite Z.geb_leb. apply Bool.orb_true_iff.
      destruct Hcode; [left; apply Z.ltb_lt | right; apply Z.leb_le]; assumption. }
    rewrite Hout. exact Hrun.
Qed.

(* ===================================================================== *)
(** * C8: reconciliation of one payment *)
(* ===================================================================== *)

(** [RunReconcileBatch] runs [reconcileItem] on every listed payment, in
    order, starting without error. *)
Lemma RunReconcileBatch_items :
  forall (W : Type) (s : PaymentService.t W) (now : Z) (st : State W)
         (items : list (option Payment.t)) (w1 : W),
    let before := now - PaymentsConfig.ReconcileStaleAfter (PaymentService.paymentsCfg s) in
    paymentRepository.ListForReconcile (PaymentService.paymentRepo s) before (batchSize s)
      (world st) = (Ok items, w1) ->
    RunReconcileBatch s now st
    = forEach (reconcileItem s now) items None
        {| world := w1;
           trace := PaymentListForReconcile before (batchSize s) :: trace st |}.
Proof.
  intros W s now st items w1 before Hlist.
  unfold RunReconcileBatch, bind, call. fold before. rewrite Hlist. reflexivity.
Qed.

Lemma forEach_cons :
  forall (W A : Type) (body : A -> option error -> M W (option error))
         (item : A) (rest : list A) (firstErr : option error) (st : State W),
    forEach body (item :: rest) firstErr st
    = forEach body rest (fst (body item firstErr st)) (snd (body item firstErr st)).
Proof.
  intros. cbn [forEach]. unfold bind. destruct (body item firstErr st). reflexivity.
Qed.

(** C8.  For a payment processed by [RunReconcileBatch] (one with a provider
    payment id and a registered provider) and polled successfully: when
    [GetPaymentStatus] returns 0 or the current status, the poll is the only
    call (no update, no event) and the payment is left as it is; otherwise
    the payment handed to [Update] carries the returned status, an armed
    delivery sub-state when that status is terminal (an untouched one when
    it is not) and [updated_at = now], and once the update is stored one
    [payment_reconciled] event carrying the old status is emitted. *)
Theorem C8_reconcile_item :
  forall (W : Type) (s : PaymentService.t W) (now : Z) (payment : Payment.t)
         (firstErr : option error) (st : State W) (providerPaymentID : string)
         (providerClient : Provider.t W) (newStatus : Z) (w1 : W),
    Payment.ProviderPaymentID payment = Some providerPaymentID ->
    strings.TrimSpace providerPaymentID <> "" ->
    Registry.Get (PaymentService.providerReg s) (Payment.Provider payment) = Ok providerClient ->
    Provider.GetPaymentStatus providerClient (strings.TrimSpace providerPaymentID) (world st)
    = (Ok newStatus, w1) ->
    let polled :=
      ProviderGetPaymentStatus (Provider.Code providerClient)
        (strings.TrimSpace providerPaymentID) :: trace st in
    (newStatus = 0 \/ newStatus = Payment.Status payment ->
     reconcileItem s now (Some payment) firstErr st
     = (firstErr, {| world := w1; trace := polled |}))
    /\ (newStatus <> 0 -> newStatus <> Payment.Status payment ->
        exists updated : Payment.t,
          Payment.Status updated = newStatus
          /\ (if terminalStatus newStatus then armed updated now
              else sameDelivery payment updated)
          /\ Payment.UpdatedAt updated = now
          /\ Payment.ID updated = Payment.ID payment
          /\ forall w2 : W,
              paymentRepository.Update (PaymentService.paymentRepo s) updated w1
              = (None, w2) ->
              let event :=
                lifecycleEvent (Payment.ID payment) "payment_reconciled"
                  (Some (Payment.Status payment)) newStatus now in
              forall (ignored : option error) (w3 : W),
                paymentEventRepository.Create (PaymentService.eventRepo s) event w2
                = (ignored, w3) ->
                reconcileItem s now (Some payment) firstErr st
                = (firstErr,
                   {| world := w3;
                      trace := EventCreate event :: PaymentUpdate updated :: polled |})).
Proof.
  intros W s now payment firstErr st pid client newStatus w1 Hpid Hblank Hget Hpoll polled.
  split.
  - intros Hskip.
    assert (Hb : (newStatus =? 0) || (newStatus =? Payment.Status payment) = true).
    { apply Bool.orb_true_iff. destruct Hskip; [left | right]; apply Z.eqb_eq; assumption. }
    unfold reconcileItem. rewrite Hpid, (string_eqb_false Hblank), Hget.
    unfold bind at 1. unfold call at 1. rewrite Hpoll, Hb. reflexivity.
  - intros Hnz Hchg.
    assert (Hb : (newStatus =? 0) || (newStatus =? Payment.Status payment) = false).
    { apply Bool.orb_false_iff. split; apply Z.eqb_neq; assumption. }
    exists (Payment.set_UpdatedAt now
              (if terminalStatus newStatus
               then markForCallbackDelivery (Payment.set_Status newStatus payment) now
               else Payment.set_Status newStatus payment)).
    split; [destruct (terminalStatus newStatus); reflexivity|].
    split; [destruct (terminalStatus newStatus); repeat split|].
    split; [reflexivity|].
    split; [destruct (terminalStatus newStatus); reflexivity|].
    intros w2 Hupd event ignored w3 Hev.
    unfold reconcileItem. rewrite Hpid, (string_eqb_false Hblank), Hget.
    unfold bind at 1. unfold call at 1. rewrite Hpoll, Hb.
    unfold bind, call, ret. cbn [world trace]. rewrite Hupd. cbn [world trace].
    replace (Payment.ID
               (Payment.set_UpdatedAt now
                  (if terminalStatus newStatus
                   then markForCallbackDelivery (Payment.set_Status newStatus payment) now
                   else Payment.set_Status newStatus payment)))
      with (Payment.ID payment) by (destruct (terminalStatus newStatus); reflexivity).
    fold event. rewrite Hev. reflexivity.
Qed.

(* ===================================================================== *)
(** * C4: arming of the delivery sub-state on terminal transitions *)
(* ===================================================================== *)

Section Emits.
Context {W : Type} (Q : Call -> Prop).

Lemma emits_ret : forall (A : Type) (a : A), emits Q (ret (W := W) a).
Proof. intros A a st. exists []. split; [reflexivity | constructor]. Qed.

Lemma emits_call :
  forall (A : Type) (c : Call) (f : W -> A * W), Q c -> emits Q (call c f).
Proof.
  intros A c f Hc st. exists [c]. unfold call.
  destruct (f (world st)). split; [reflexivity | repeat constructor; exact Hc].
Qed.

Lemma emits_bind :
  forall (A B : Type) (m : M W A) (k : A -> M W B),
    emits Q m -> (forall a, emits Q (k a)) -> emits Q (bind m k).
Proof.
  intros A B m k Hm Hk st. unfold bind.
  destruct (Hm st) as (d1 & Ht1 & Hq1).
  destruct (m st) as [a st1]. cbn [snd] in Ht1.
  destruct (Hk a st1) as (d2 & Ht2 & Hq2).
  exists (d2 ++ d1)%list. split.
  - rewrite Ht2, Ht1. apply app_assoc.
  - apply Forall_app. split; assumption.
Qed.

Lemma emits_forEach :
  forall (A : Type) (body : A -> option error -> M W (option error)) (items : list A),
    (forall item firstErr, emits Q (body item firstErr)) ->
    forall firstErr, emits Q (forEach body items firstErr).
Proof.
  intros A body items Hbody. induction items as [|item rest IH]; intro firstErr; cbn [forEach].
  - apply emits_ret.
  - apply emits_bind; [apply Hbody | intro; apply IH].
Qed.
End Emits.

Ltac emits_step :=
  lazymatch goal with
  | |- emits _ (ret _) => apply emits_ret
  | |- emits _ (bind _ _) => apply emits_bind; [|intro]
  | |- emits _ (call _ _) => apply emits_call
  | |- emits _ (forEach _ _ _) => apply emits_forEach; intros
  | |- emits _ (match ?x with _ => _ end) => destruct x eqn:?
  end.

Lemma armedWrite_mark_if_terminal (p : Payment.t) (now : Z) :
  let q := if terminalStatus (Payment.Status p) then markForCallbackDelivery p now else p in
  terminalStatus (Payment.Status q) = true -> armed q now.
Proof.
  cbv zeta. destruct (terminalStatus (Payment.Status p)) eqn:Hterm.
  - intros _. apply markForCallbackDelivery_armed.
  - rewrite Hterm. discriminate.
Qed.

Lemma CreatePayment_emits_armed :
  forall (W : Type) (s : PaymentService.t W) (now : Z) (uuid : string)
         (req : CreatePaymentRequest.t),
    emits (armedWrite now) (CreatePayment s now uuid req).
Proof.
  intros. unfold CreatePayment. cbv zeta.
  repeat emits_step; try exact I.
  match goal with
  | |- armedWrite _ (PaymentCreate (if terminalStatus (Payment.Status ?p) then _ else _)) =>
      exact (armedWrite_mark_if_terminal p now)
  end.
Qed.

Lemma CancelPayment_emits_armed :
  forall (W : Type) (s : PaymentService.t W) (now : Z) (req : CancelPaymentRequest.t),
    emits (armedWriteOf PaymentStatus_CANCELED now) (CancelPayment s now req).
Proof.
  intros. unfold CancelPayment. cbv zeta.
  repeat emits_step; try exact I.
  repeat split.
Qed.

Lemma RunReconcileBatch_emits_armed :
  forall (W : Type) (s : PaymentService.t W) (now : Z),
    emits (armedWrite now) (RunReconcileBatch s now).
Proof.
  intros. unfold RunReconcileBatch. cbv zeta.
  repeat emits_step; try exact I.
  unfold reconcileItem. cbv zeta.
  repeat emits_step; try exact I.
  match goal with
  | |- armedWrite _ (PaymentUpdate (Payment.set_UpdatedAt _
                                      (if terminalStatus ?status then _ else _))) =>
      destruct (terminalStatus status) eqn:Hterm
  end.
  - intros _. repeat split.
  - cbn [armedWrite Payment.Status Payment.set_UpdatedAt Payment.set_Status].
    rewrite Hterm. discriminate.
Qed.

Lemma RunExpirePendingBatch_emits_armed :
  forall (W : Type) (s : PaymentService.t W) (now : Z),
    emits (armedWriteOf PaymentStatus_EXPIRED now) (RunExpirePendingBatch s now).
Proof.
  intros. unfold RunExpirePendingBatch. cbv zeta.
  repeat emits_step; try exact I.
  unfold expireItem. cbv zeta.
  repeat emits_step; try exact I.
  repeat split.
Qed.

(** What [HandleProviderCallback] does to the loaded payment: the status
    becomes the event's [new_status] whenever that is positive, whatever the
    current status; the delivery sub-state is armed exactly on a change to a
    terminal status and untouched otherwise. *)
Lemma applyParsedEvent_spec (loaded : Payment.t) (parsedEvent : CallbackEvent.t) (now : Z) :
  let payment := applyParsedEvent loaded parsedEvent now in
  Payment.Status payment
  = (if 0 <? CallbackEvent.NewStatus parsedEvent
     then CallbackEvent.NewStatus parsedEvent
     else Payment.Status loaded)
  /\ (Payment.Status payment <> Payment.Status loaded ->
      terminalStatus (Payment.Status payment) = true -> armed payment now)
  /\ (Payment.Status payment = Payment.Status loaded \/
      terminalStatus (Payment.Status payment) = false -> sameDelivery loaded payment)
  /\ Payment.UpdatedAt payment = now
  /\ Payment.ID payment = Payment.ID loaded.
Proof.
  unfold applyParsedEvent. cbv zeta. rewrite Z.gtb_ltb.
  destruct (CallbackEvent.ProviderPaymentID parsedEvent);
    destruct (CallbackEvent.ProviderSubscriptionID parsedEvent);
    destruct (0 <? CallbackEvent.NewStatus parsedEvent);
    cbn [Payment.Status Payment.set_Status Payment.set_ProviderPaymentID
         Payment.set_ProviderSubscriptionID];
    match goal with
    | |- context [negb (?a =? ?b) && terminalStatus ?c] =>
        destruct (Z.eqb_spec a b) as [Heq | Hneq]; destruct (terminalStatus c) eqn:Hterm
    end;
    cbn [negb andb];
    (split; [reflexivity|]);
    (split; [intros Hchg Ht; try (exfalso; apply Hchg; assumption);
             try (cbn in Ht; congruence); repeat split|]);
    (split; [intros [Hsame | Ht]; try (repeat split; fail);
             try (exfalso; apply Hneq; assumption);
             cbn in Ht; try congruence; exfalso; auto|]);
    split; reflexivity.
Qed.

(* ===================================================================== *)
(** * The paths of [HandleProviderCallback] *)
(* ===================================================================== *)

Section HandleProviderCallbackPaths.
Context {W : Type} (s : PaymentService.t W) (now : Z)
        (req : HandleProviderCallbackRequest.t) (st : State W).
Context (providerCode : Z) (providerClient : Provider.t W).

Let rt := PaymentService.runtime s.
Let payload := HandleProviderCallbackRequest.Payload req.
Let signature := strings.TrimSpace (HandleProviderCallbackRequest.Signature req).
Let callbackHash := strings.TrimSpace (HandleProviderCallbackRequest.CallbackHash req).
Let verified :=
  ProviderVerifyAndParseCallback (Provider.Code providerClient) payload signature :: trace st.
Let looked := PaymentFindByCallbackHash providerCode callbackHash :: verified.

Hypothesis Hparse :
  parseProviderCode rt (HandleProviderCallbackRequest.Provider req) = Ok providerCode.
Hypothesis Hget :
  Registry.Get (PaymentService.providerReg s) providerCode = Ok providerClient.

(** Verification failed, or produced no event: one rejected row. *)
Lemma HandleProviderCallback_rejected :
  forall (parsed : result (option CallbackEvent.t)) (w1 : W) (reason : string),
    Provider.VerifyAndParseCallback providerClient payload signature (world st)
    = (parsed, w1) ->
    (exists err, parsed = Err err
                 /\ reason = "provider callback validation failed: " ++ Error err)
    \/ (parsed = Ok None /\ reason = "provider callback payload could not be parsed") ->
    forall (ignored : option error) (w2 : W),
      paymentCallbackRepository.Create (PaymentService.callbackRepo s)
        (rejectedCallbackRow rt now None req reason) w1 = (ignored, w2) ->
      HandleProviderCallback s now req st
      = (Err ErrCallbackRejected,
         {| world := w2;
            trace := CallbackCreate (rejectedCallbackRow rt now None req reason)
                     :: verified |}).
Proof.
  intros parsed w1 reason Hverify Hwhy ignored w2 Hrow.
  unfold HandleProviderCallback. fold rt. rewrite Hparse, Hget.
  fold payload signature. unfold bind at 1. unfold call at 1. rewrite Hverify.
  destruct Hwhy as [(err & -> & ->) | (-> & ->)];
    unfold persistRejectedCallback, bind, call, ret; cbn [world trace];
    fold rt; rewrite Hrow; reflexivity.
Qed.

(** The event was parsed but no payment carries the callback hash: one
    rejected row. *)
Lemma HandleProviderCallback_unknown_hash :
  forall (parsedEvent : CallbackEvent.t) (w1 w2 : W),
    Provider.VerifyAndParseCallback providerClient payload signature (world st)
    = (Ok (Some parsedEvent), w1) ->
    paymentRepository.FindByCallbackHash (PaymentService.paymentRepo s)
      providerCode callbackHash w1 = (Ok None, w2) ->
    forall (ignored : option error) (w3 : W),
      paymentCallbackRepository.Create (PaymentService.callbackRepo s)
        (rejectedCallbackRow rt now None req "payment not found for callback hash") w2
      = (ignored, w3) ->
      HandleProviderCallback s now req st
      = (Err ErrPaymentNotFound,
         {| world := w3;
            trace := CallbackCreate
                       (rejectedCallbackRow rt now None req
                          "payment not found for callback hash")
                     :: looked |}).
Proof.
  intros parsedEvent w1 w2 Hverify Hfind ignored w3 Hrow.
  unfold HandleProviderCallback. fold rt. rewrite Hparse, Hget.
  fold payload signature callbackHash.
  unfold bind at 1. unfold call at 1. rewrite Hverify.
  unfold bind at 1. unfold call at 1. cbn [world trace]. rewrite Hfind.
  unfold persistRejectedCallback, bind, call, ret; cbn [world trace].
  fold rt. rewrite Hrow. reflexivity.
Qed.

(** The event was parsed and a payment carries the callback hash: the
    payment is updated, and once the update is stored one event and one
    processed row are written. *)
Lemma HandleProviderCallback_processed :
  forall (parsedEvent : CallbackEvent.t) (loaded : Payment.t) (w1 w2 : W),
    Provider.VerifyAndParseCallback providerClient payload signature (world st)
    = (Ok (Some parsedEvent), w1) ->
    paymentRepository.FindByCallbackHash (PaymentService.paymentRepo s)
      providerCode callbackHash w1 = (Ok (Some loaded), w2) ->
    let payment := applyParsedEvent loaded parsedEvent now in
    let event := providerCallbackEvent payment (Payment.Status loaded) parsedEvent payload now in
    let row := processedCallbackRow rt now payment req in
    forall (answer : option error) (w3 : W),
      paymentRepository.Update (PaymentService.paymentRepo s) payment w2 = (answer, w3) ->
      match answer with
      | Some err =>
          HandleProviderCallback s now req st
          = (Err (if errors_Is err repository_ErrPaymentNotFound
                  then Sentinel ErrPaymentNotFound else err),
             {| world := w3; trace := PaymentUpdate payment :: looked |})
      | None =>
          forall (ignored : option error) (w4 : W),
            paymentEventRepository.Create (PaymentService.eventRepo s) event w3
            = (ignored, w4) ->
            forall (callbackErr : option error) (w5 : W),
              paymentCallbackRepository.Create (PaymentService.callbackRepo s) row w4
              = (callbackErr, w5) ->
              HandleProviderCallback s now req st
              = (match callbackErr with
                 | Some err => Err err
                 | None => Ok payment
                 end,
                 {| world := w5;
                    trace := CallbackCreate row :: EventCreate event
                             :: PaymentUpdate payment :: looked |})
      end.
Proof.
  intros parsedEvent loaded w1 w2 Hverify Hfind payment event row answer w3 Hupd.
  destruct answer as [err|].
  - unfold HandleProviderCallback. fold rt. rewrite Hparse, Hget.
    fold payload signature callbackHash.
    unfold bind at 1. unfold call at 1. rewrite Hverify.
    unfold bind at 1. unfold call at 1. cbn [world trace]. rewrite Hfind.
    fold payment. unfold bind at 1. unfold call at 1. cbn [world trace]. rewrite Hupd.
    destruct (errors_Is err repository_ErrPaymentNotFound); reflexivity.
  - intros ignored w4 Hev callbackErr w5 Hrow.
    unfold HandleProviderCallback. fold rt. rewrite Hparse, Hget.
    fold payload signature callbackHash.
    unfold bind at 1. unfold call at 1. rewrite Hverify.
    unfold bind at 1. unfold call at 1. cbn [world trace]. rewrite Hfind.
    fold payment. unfold bind at 1. unfold call at 1. cbn [world trace]. rewrite Hupd.
    fold event. unfold bind at 1. unfold call at 1. cbn [world trace]. rewrite Hev.
    fold row. unfold bind at 1. unfold call at 1. cbn [world trace]. rewrite Hrow.
    destruct callbackErr; reflexivity.
Qed.

End HandleProviderCallbackPaths.

(** C4.  Every payment that an operation hands to the repository with a
    terminal status reached by that operation carries an armed delivery
    sub-state (PENDING, 0 attempts, due at the current time, no last error):
    - [CreatePayment] and [RunReconcileBatch]: every write whose status is
      terminal is armed;
    - [CancelPayment] and [RunExpirePendingBatch]: every write is CANCELED,
      respectively EXPIRED, and armed;
    - [HandleProviderCallback]: its single write is armed when its status is
      terminal and differs from the status of the payment it loaded. *)
Theorem C4_terminal_transitions_arm_delivery :
  forall (W : Type) (s : PaymentService.t W) (now : Z),
    (forall uuid req, emits (armedWrite now) (CreatePayment s now uuid req))
    /\ (forall req, emits (armedWriteOf PaymentStatus_CANCELED now) (CancelPayment s now req))
    /\ emits (armedWrite now) (RunReconcileBatch s now)
    /\ emits (armedWriteOf PaymentStatus_EXPIRED now) (RunExpirePendingBatch s now)
    /\ (forall (req : HandleProviderCallbackRequest.t) (st : State W)
               (providerCode : Z) (providerClient : Provider.t W)
               (parsedEvent : CallbackEvent.t) (loaded : Payment.t) (w1 w2 : W),
           parseProviderCode (PaymentService.runtime s)
             (HandleProviderCallbackRequest.Provider req) = Ok providerCode ->
           Registry.Get (PaymentService.providerReg s) providerCode = Ok providerClient ->
           Provider.VerifyAndParseCallback providerClient
             (HandleProviderCallbackRequest.Payload req)
             (strings.TrimSpace (HandleProviderCallbackRequest.Signature req)) (world st)
           = (Ok (Some parsedEvent), w1) ->
           paymentRepository.FindByCallbackHash (PaymentService.paymentRepo s) providerCode
             (strings.TrimSpace (HandleProviderCallbackRequest.CallbackHash req)) w1
           = (Ok (Some loaded), w2) ->
           exists payment : Payment.t,
             paymentWrites (trace (snd (HandleProviderCallback s now req st)))
             = payment :: paymentWrites (trace st)
             /\ Payment.ID payment = Payment.ID loaded
             /\ (Payment.Status payment <> Payment.Status loaded ->
                 terminalStatus (Payment.Status payment) = true ->
                 armed payment now)).
Proof.
  intros W s now.
  split; [intros; apply CreatePayment_emits_armed|].
  split; [intros; apply CancelPayment_emits_armed|].
  split; [apply RunReconcileBatch_emits_armed|].
  split; [apply RunExpirePendingBatch_emits_armed|].
  intros req st code client parsedEvent loaded w1 w2 Hparse Hget Hverify Hfind.
  exists (applyParsedEvent loaded parsedEvent now).
  destruct (applyParsedEvent_spec loaded parsedEvent now) as (_ & Harm & _ & _ & Hid).
  split; [|split; assumption].
  destruct (paymentRepository.Update (PaymentService.paymentRepo s)
              (applyParsedEvent loaded parsedEvent now) w2) as [answer w3] eqn:Hupd.
  pose proof (@HandleProviderCallback_processed W s now req st code client Hparse Hget
                parsedEvent loaded w1 w2 Hverify Hfind answer w3 Hupd)
    as Hrun.
  destruct answer as [err|].
  - rewrite Hrun. reflexivity.
  - cbv zeta in Hrun.
    match type of Hrun with
    | forall ignored w4, paymentEventRepository.Create ?r ?e ?w = _ -> _ =>
        destruct (paymentEventRepository.Create r e w) as [ignored w4] eqn:Hev;
        specialize (Hrun ignored w4 eq_refl)
    end.
    match type of Hrun with
    | forall callbackErr w5, paymentCallbackRepository.Create ?r ?c ?w = _ -> _ =>
        destruct (paymentCallbackRepository.Create r c w) as [callbackErr w5] eqn:Hrow;
        specialize (Hrun callbackErr w5 eq_refl)
    end.
    rewrite Hrun. reflexivity.
Qed.

(* ===================================================================== *)
(** * C3: the audit row of an inbound provider callback *)
(* ===================================================================== *)

Lemma substring_0_nonempty (n : nat) (s : string) :
  (0 < n)%nat -> s <> "" -> substring 0 n s <> "".
Proof.
  intros Hn Hs. destruct n as [|n]; [lia|].
  destruct s as [|c s]; [now elim Hs|]. cbn. discriminate.
Qed.

(** The row of a rejected callback: status REJECTED, the given payment
    reference, and a non-empty error of at most 1024 bytes. *)
Lemma rejectedCallbackRow_spec :
  forall (rt : GoRuntime.t) (now : Z) (paymentID : option Z)
         (req : HandleProviderCallbackRequest.t) (reason : string),
    let row := rejectedCallbackRow rt now paymentID req reason in
    PaymentCallback.Status row = paymentCallbackStatusRejected
    /\ PaymentCallback.PaymentID row = paymentID
    /\ exists e : string,
        PaymentCallback.Error row = Some e /\ e <> "" /\ strings.len e <= 1024.
Proof.
  intros rt now paymentID req reason row.
  split; [reflexivity|]. split; [reflexivity|].
  eexists. split; [reflexivity|].
  set (r := if (strings.TrimSpace reason =? "")%string
            then "callback rejected" else strings.TrimSpace reason).
  assert (Hr : r <> "").
  { unfold r. destruct (strings.TrimSpace reason =? "")%string eqn:E;
      [discriminate | apply String.eqb_neq; exact E]. }
  split; [|apply (@truncate_spec r 1024); lia].
  unfold truncate. destruct (strings.len r <=? 1024); [exact Hr|].
  apply substring_0_nonempty; [|exact Hr].
  change (Z.to_nat 1024) with (Pos.to_nat 1024). lia.
Qed.

(** Counterexample to C3 as the specification words it ("every inbound
    provider callback produces exactly one PaymentCallback row"): on a
    callback whose provider tag is unknown the operation answers
    [ErrProviderUnsupported] and no PaymentCallback row is written at all. *)
Lemma C3_counterexample_unknown_provider_tag :
  let s := newPaymentServiceForTest serviceProvider.zero (callbackServer 200) in
  let req := testCallbackRequest "paypal" in
  let outcome :=
    run (HandleProviderCallback s 100 req) (worldWith (testPayment PaymentStatus_PENDING 0)) in
  fst outcome = Err ErrProviderUnsupported
  /\ callbackRows (trace (snd outcome)) = []
  /\ TestWorld.callbacks (world (snd outcome)) = []
  /\ List.length (callbackRows (trace (snd outcome))) <> 1%nat.
Proof. vm_compute. repeat split. discriminate. Qed.

(** C3, as it holds of the code.  For a callback whose provider tag resolves to a registered
    provider, [HandleProviderCallback] hands exactly one row to the callback
    repository:
    - a REJECTED row without payment reference and with a non-empty error
      when verification fails or yields no event (result
      [ErrCallbackRejected]) and when no payment carries the callback hash
      (result [ErrPaymentNotFound]); no payment is written on these paths;
    - a PROCESSED row referring to the payment, without error, when the
      payment was found and its update stored. *)
Theorem C3_one_callback_row_when_provider_resolves :
  forall (W : Type) (s : PaymentService.t W) (now : Z)
         (req : HandleProviderCallbackRequest.t) (st : State W)
         (providerCode : Z) (providerClient : Provider.t W)
         (parsed : result (option CallbackEvent.t)) (w1 : W),
    parseProviderCode (PaymentService.runtime s)
      (HandleProviderCallbackRequest.Provider req) = Ok providerCode ->
    Registry.Get (PaymentService.providerReg s) providerCode = Ok providerClient ->
    Provider.VerifyAndParseCallback providerClient
      (HandleProviderCallbackRequest.Payload req)
      (strings.TrimSpace (HandleProviderCallbackRequest.Signature req)) (world st)
    = (parsed, w1) ->
    let outcome := HandleProviderCallback s now req st in
    let rejected (row : PaymentCallback.t) :=
      PaymentCallback.Status row = paymentCallbackStatusRejected
      /\ PaymentCallback.PaymentID row = None
      /\ (exists e : string, PaymentCallback.Error row = Some e /\ e <> "")
      /\ paymentWrites (trace (snd outcome)) = paymentWrites (trace st) in
    match parsed with
    | Err _ | Ok None =>
        exists row : PaymentCallback.t,
          callbackRows (trace (snd outcome)) = row :: callbackRows (trace st)
          /\ rejected row
          /\ fst outcome = Err ErrCallbackRejected
    | Ok (Some parsedEvent) =>
        forall (found : option Payment.t) (w2 : W),
          paymentRepository.FindByCallbackHash (PaymentService.paymentRepo s) providerCode
            (strings.TrimSpace (HandleProviderCallbackRequest.CallbackHash req)) w1
          = (Ok found, w2) ->
          match found with
          | None =>
              exists row : PaymentCallback.t,
                callbackRows (trace (snd outcome)) = row :: callbackRows (trace st)
                /\ rejected row
                /\ fst outcome = Err ErrPaymentNotFound
          | Some loaded =>
              forall w3 : W,
                paymentRepository.Update (PaymentService.paymentRepo s)
                  (applyParsedEvent loaded parsedEvent now) w2 = (None, w3) ->
                exists row : PaymentCallback.t,
                  callbackRows (trace (snd outcome)) = row :: callbackRows (trace st)
                  /\ PaymentCallback.Status row = paymentCallbackStatusProcessed
                  /\ PaymentCallback.PaymentID row = Some (Payment.ID loaded)
                  /\ PaymentCallback.Error row = None
                  /\ (fst outcome = Ok (applyParsedEvent loaded parsedEvent now)
                      \/ exists err : error, fst outcome = Err err)
          end
    end.
Proof.
  intros W s now req st code client parsed w1 Hparse Hget Hverify outcome rejected.
  set (rt := PaymentService.runtime s).
  assert (Hrejected :
    forall reason, 
      PaymentCallback.Status (rejectedCallbackRow rt now None req reason)
      = paymentCallbackStatusRejected
      /\ PaymentCallback.PaymentID (rejectedCallbackRow rt now None req reason) = None
      /\ (exists e, PaymentCallback.Error (rejectedCallbackRow rt now None req reason) = Some e
                    /\ e <> "")).
  { intro reason.
    destruct (rejectedCallbackRow_spec rt now None req reason) as (H1 & H2 & e & H3 & H4 & _).
    split; [exact H1|]. split; [exact H2|]. exists e. split; assumption. }
  assert (Hreject_case :
    forall reason,
      (exists err, parsed = Err err
                   /\ reason = "provider callback validation failed: " ++ Error err)
      \/ (parsed = Ok None /\ reason = "provider callback payload could not be parsed") ->
      exists row : PaymentCallback.t,
        callbackRows (trace (snd outcome)) = row :: callbackRows (trace st)
        /\ rejected row /\ fst outcome = Err ErrCallbackRejected).
  { intros reason Hwhy.
    destruct (paymentCallbackRepository.Create (PaymentService.callbackRepo s)
                (rejectedCallbackRow rt now None req reason) w1) as [ignored w2] eqn:Hrow.
    pose proof (@HandleProviderCallback_rejected W s now req st code client Hparse Hget
                  parsed w1 reason Hverify Hwhy ignored w2 Hrow) as Hrun.
    exists (rejectedCallbackRow rt now None req reason).
    unfold rejected, outcome. rewrite Hrun. cbn [fst snd trace callbackRows paymentWrites].
    destruct (Hrejected reason) as (H1 & H2 & H3).
    repeat split; assumption || reflexivity. }
  destruct parsed as [[parsedEvent|]|err].
  - intros found w2 Hfind. destruct found as [loaded|].
    + intros w3 Hupd.
      pose proof (@HandleProviderCallback_processed W s now req st code client Hparse Hget
                    parsedEvent loaded w1 w2 Hverify Hfind None w3 Hupd) as Hrun.
      cbv zeta iota beta in Hrun.
      match type of Hrun with
      | forall ignored w4, paymentEventRepository.Create ?r ?e ?w = _ -> _ =>
          destruct (paymentEventRepository.Create r e w) as [ignored w4] eqn:Hev;
          specialize (Hrun ignored w4 eq_refl)
      end.
      match type of Hrun with
      | forall callbackErr w5, paymentCallbackRepository.Create ?r ?c ?w = _ -> _ =>
          destruct (paymentCallbackRepository.Create r c w) as [callbackErr w5] eqn:Hrow;
          specialize (Hrun callbackErr w5 eq_refl)
      end.
      eexists. unfold outcome. rewrite Hrun. cbn [fst snd trace callbackRows].
      split; [reflexivity|]. split; [reflexivity|].
      split; [cbn; f_equal; apply applyParsedEvent_spec|].
      split; [reflexivity|].
      destruct callbackErr as [err|]; [right; exists err; reflexivity | left; reflexivity].
    + destruct (paymentCallbackRepository.Create (PaymentService.callbackRepo s)
                  (rejectedCallbackRow rt now None req "payment not found for callback hash")
                  w2) as [ignored w3] eqn:Hrow.
      pose proof (@HandleProviderCallback_unknown_hash W s now req st code client Hparse Hget
                    parsedEvent w1 w2 Hverify Hfind ignored w3 Hrow) as Hrun.
      exists (rejectedCallbackRow rt now None req "payment not found for callback hash").
      unfold rejected, outcome. rewrite Hrun. cbn [fst snd trace callbackRows paymentWrites].
      destruct (Hrejected "payment not found for callback hash") as (H1 & H2 & H3).
      repeat split; assumption || reflexivity.
  - apply (Hreject_case "provider callback payload could not be parsed").
    right. split; reflexivity.
  - apply (Hreject_case ("provider callback validation failed: " ++ Error err)).
    left. exists err. split; reflexivity.
Qed.

(* ===================================================================== *)
(** * C9: replaying a provider event *)
(* ===================================================================== *)

(** A payment that already carries the ids and the status of the parsed
    event is left as it is, up to [updated_at]. *)
Lemma applyParsedEvent_fixed (p : Payment.t) (parsedEvent : CallbackEvent.t) (now : Z) :
  (forall x, CallbackEvent.ProviderPaymentID parsedEvent = Some x ->
             Payment.ProviderPaymentID p = Some x) ->
  (forall x, CallbackEvent.ProviderSubscriptionID parsedEvent = Some x ->
             Payment.ProviderSubscriptionID p = Some x) ->
  ((CallbackEvent.NewStatus parsedEvent >? 0) = true ->
   Payment.Status p = CallbackEvent.NewStatus parsedEvent) ->
  applyParsedEvent p parsedEvent now = Payment.set_UpdatedAt now p.
Proof.
  intros Hpid Hsub Hstatus. destruct p. cbn in Hpid, Hsub, Hstatus.
  unfold applyParsedEvent. cbv zeta.
  destruct (CallbackEvent.ProviderPaymentID parsedEvent) as [x|];
    [rewrite (Hpid x eq_refl)|];
    (destruct (CallbackEvent.ProviderSubscriptionID parsedEvent) as [y|];
     [rewrite (Hsub y eq_refl)|]);
    (destruct (CallbackEvent.NewStatus parsedEvent >? 0);
     [rewrite (Hstatus eq_refl)|]);
    cbn; rewrite Z.eqb_refl; reflexivity.
Qed.

(** Applying the same parsed event a second time changes nothing but
    [updated_at]: in particular the delivery sub-state is not re-armed. *)
Lemma applyParsedEvent_twice (loaded : Payment.t) (parsedEvent : CallbackEvent.t)
  (now1 now2 : Z) :
  applyParsedEvent (applyParsedEvent loaded parsedEvent now1) parsedEvent now2
  = Payment.set_UpdatedAt now2 (applyParsedEvent loaded parsedEvent now1).
Proof.
  apply applyParsedEvent_fixed.
  - intros x Hx. unfold applyParsedEvent. cbv zeta. rewrite Hx.
    repeat match goal with |- context [if ?b then _ else _] => destruct b end;
      destruct (CallbackEvent.ProviderSubscriptionID parsedEvent); reflexivity.
  - intros x Hx. unfold applyParsedEvent. cbv zeta. rewrite Hx.
    repeat match goal with |- context [if ?b then _ else _] => destruct b end;
      destruct (CallbackEvent.ProviderPaymentID parsedEvent); reflexivity.
  - intros Hpos. destruct (applyParsedEvent_spec loaded parsedEvent now1) as (Hst & _).
    rewrite Hst. rewrite Z.gtb_ltb in Hpos. rewrite Hpos. reflexivity.
Qed.

(** Counterexample to C9 as the specification words it ("leaves the Payment
    unchanged after the first application"): replaying the event that paid a
    payment stores a payment that differs from the one stored by the first
    application (its [updated_at] moved from 100 to 200), although status and
    delivery sub-state are the same. *)
Lemma C9_counterexample_replay_bumps_updated_at :
  let s :=
    newPaymentServiceForTest
      (providerWithEvent "checkout.session.completed" PaymentStatus_PAID)
      (callbackServer 200) in
  let req := testCallbackRequest "stripe" in
  let first :=
    run (HandleProviderCallback s 100 req) (worldWith (testPayment PaymentStatus_PENDING 0)) in
  let second := run (HandleProviderCallback s 200 req) (world (snd first)) in
  stored (world (snd second)) 1 <> stored (world (snd first)) 1
  /\ option_map Payment.UpdatedAt (stored (world (snd first)) 1) = Some 100
  /\ option_map Payment.UpdatedAt (stored (world (snd second)) 1) = Some 200
  /\ option_map Payment.Status (stored (world (snd second)) 1) = Some PaymentStatus_PAID.
Proof. vm_compute. repeat split. discriminate. Qed.

(** C9, as it holds of the code.  Let [first] be the payment left by a first application of
    the parsed event [e].  A second [HandleProviderCallback] that parses [e]
    again and loads [first] stores [first] with only [updated_at] moved to
    the time of the second call: status and delivery sub-state are those of
    [first] (no re-arm); it emits an event without old status and still
    writes a second PaymentCallback row with status PROCESSED. *)
Theorem C9_replayed_event_only_bumps_updated_at :
  forall (W : Type) (s : PaymentService.t W) (now1 now2 : Z)
         (req : HandleProviderCallbackRequest.t) (st : State W)
         (providerCode : Z) (providerClient : Provider.t W)
         (parsedEvent : CallbackEvent.t) (loaded : Payment.t)
         (w1 w2 w3 w4 w5 : W) (ignored : option error),
    let rt := PaymentService.runtime s in
    let payload := HandleProviderCallbackRequest.Payload req in
    let signature := strings.TrimSpace (HandleProviderCallbackRequest.Signature req) in
    let callbackHash := strings.TrimSpace (HandleProviderCallbackRequest.CallbackHash req) in
    let first := applyParsedEvent loaded parsedEvent now1 in
    let second := Payment.set_UpdatedAt now2 first in
    let event := providerCallbackEvent second (Payment.Status first) parsedEvent payload now2 in
    let row := processedCallbackRow rt now2 second req in
    parseProviderCode rt (HandleProviderCallbackRequest.Provider req) = Ok providerCode ->
    Registry.Get (PaymentService.providerReg s) providerCode = Ok providerClient ->
    Provider.VerifyAndParseCallback providerClient payload signature (world st)
    = (Ok (Some parsedEvent), w1) ->
    paymentRepository.FindByCallbackHash (PaymentService.paymentRepo s)
      providerCode callbackHash w1 = (Ok (Some first), w2) ->
    paymentRepository.Update (PaymentService.paymentRepo s) second w2 = (None, w3) ->
    paymentEventRepository.Create (PaymentService.eventRepo s) event w3 = (ignored, w4) ->
    paymentCallbackRepository.Create (PaymentService.callbackRepo s) row w4 = (None, w5) ->
    HandleProviderCallback s now2 req st
    = (Ok second,
       {| world := w5;
          trace := CallbackCreate row :: EventCreate event :: PaymentUpdate second
                   :: PaymentFindByCallbackHash providerCode callbackHash
                   :: ProviderVerifyAndParseCallback (Provider.Code providerClient)
                        payload signature
                   :: trace st |})
    /\ Payment.Status second = Payment.Status first
    /\ sameDelivery first second
    /\ PaymentEvent.OldStatus event = None
    /\ PaymentCallback.Status row = paymentCallbackStatusProcessed
    /\ PaymentCallback.PaymentID row = Some (Payment.ID first).
Proof.
  intros W s now1 now2 req st code client parsedEvent loaded w1 w2 w3 w4 w5 ignored
         rt payload signature callbackHash first second event row
         Hparse Hget Hverify Hfind Hupd Hev Hrow.
  assert (Hsecond : applyParsedEvent first parsedEvent now2 = second).
  { apply applyParsedEvent_twice. }
  split.
  - pose proof (@HandleProviderCallback_processed W s now2 req st code client Hparse Hget
                  parsedEvent first w1 w2 Hverify Hfind None w3) as Hrun.
    cbv zeta iota beta in Hrun. rewrite Hsecond in Hrun.
    exact (Hrun Hupd ignored w4 Hev None w5 Hrow).
  - split; [reflexivity|]. split; [repeat split|].
    split; [|split; reflexivity].
    unfold event, providerCallbackEvent. cbn [PaymentEvent.OldStatus].
    change (Payment.Status second) with (Payment.Status first).
    rewrite Z.eqb_refl. reflexivity.
Qed.

(* ===================================================================== *)
(** * C1: what protects a terminal status *)
(* ===================================================================== *)

(** Counterexample to C1 as the specification words it ("once the status
    is terminal it must not change"): a provider event mapped to PAID,
    handled for a CANCELED payment, stores the status PAID; and
    [CancelPayment] moves a FAILED payment to CANCELED. *)
Lemma C1_counterexample_terminal_status_overwritten :
  let s :=
    newPaymentServiceForTest
      (providerWithEvent "checkout.session.completed" PaymentStatus_PAID)
      (callbackServer 200) in
  let canceled := worldWith (testPayment PaymentStatus_CANCELED 0) in
  let failed := worldWith (testPayment PaymentStatus_FAILED 0) in
  let afterCallback :=
    run (HandleProviderCallback s 100 (testCallbackRequest "stripe")) canceled in
  let afterCancel :=
    run (CancelPayment s 100 {| CancelPaymentRequest.Id := 1;
                                CancelPaymentRequest.Reason := "duplicate" |}) failed in
  (terminalStatus PaymentStatus_CANCELED = true
   /\ option_map Payment.Status (stored canceled 1) = Some PaymentStatus_CANCELED
   /\ option_map Payment.Status (stored (world (snd afterCallback)) 1)
      = Some PaymentStatus_PAID)
  /\ (terminalStatus PaymentStatus_FAILED = true
      /\ option_map Payment.Status (stored failed 1) = Some PaymentStatus_FAILED
      /\ option_map Payment.Status (stored (world (snd afterCancel)) 1)
         = Some PaymentStatus_CANCELED).
Proof. vm_compute. repeat split. Qed.

(** C1, as it holds of the code.  Only PAID is protected, and only against cancellation:
    - [CancelPayment] on a PAID payment fails with [ErrInvalidStatus] and
      writes nothing;
    - [CancelPayment] on any other payment (FAILED, CANCELED and EXPIRED
      included) writes the payment with status CANCELED;
    - [HandleProviderCallback] writes the loaded payment with the parsed
      event's [new_status] whenever that is positive, whatever the current
      status, and with the current status otherwise. *)
Theorem C1_only_paid_is_protected_from_cancel :
  forall (W : Type) (s : PaymentService.t W) (now : Z),
    (forall (req : CancelPaymentRequest.t) (st : State W) (payment : Payment.t) (w1 : W),
        paymentRepository.FindByID (PaymentService.paymentRepo s)
          (CancelPaymentRequest.Id req) (world st) = (Ok (Some payment), w1) ->
        let outcome := CancelPayment s now req st in
        (Payment.Status payment = PaymentStatus_PAID ->
         (exists err, fst outcome = Err err /\ errors_Is err ErrInvalidStatus = true)
         /\ paymentWrites (trace (snd outcome)) = paymentWrites (trace st))
        /\ (Payment.Status payment <> PaymentStatus_PAID ->
            exists updated : Payment.t,
              paymentWrites (trace (snd outcome)) = updated :: paymentWrites (trace st)
              /\ Payment.ID updated = Payment.ID payment
              /\ Payment.Status updated = PaymentStatus_CANCELED))
    /\ (forall (req : HandleProviderCallbackRequest.t) (st : State W)
               (providerCode : Z) (providerClient : Provider.t W)
               (parsedEvent : CallbackEvent.t) (loaded : Payment.t) (w1 w2 : W),
           parseProviderCode (PaymentService.runtime s)
             (HandleProviderCallbackRequest.Provider req) = Ok providerCode ->
           Registry.Get (PaymentService.providerReg s) providerCode = Ok providerClient ->
           Provider.VerifyAndParseCallback providerClient
             (HandleProviderCallbackRequest.Payload req)
             (strings.TrimSpace (HandleProviderCallbackRequest.Signature req)) (world st)
           = (Ok (Some parsedEvent), w1) ->
           paymentRepository.FindByCallbackHash (PaymentService.paymentRepo s) providerCode
             (strings.TrimSpace (HandleProviderCallbackRequest.CallbackHash req)) w1
           = (Ok (Some loaded), w2) ->
           exists payment : Payment.t,
             paymentWrites (trace (snd (HandleProviderCallback s now req st)))
             = payment :: paymentWrites (trace st)
             /\ Payment.ID payment = Payment.ID loaded
             /\ Payment.Status payment
                = (if 0 <? CallbackEvent.NewStatus parsedEvent
                   then CallbackEvent.NewStatus parsedEvent
                   else Payment.Status loaded)).
Proof.
  intros W s now. split.
  - intros req st payment w1 Hfind outcome. split.
    + intro Hpaid. subst outcome.
      unfold CancelPayment, bind, call. rewrite Hfind, Hpaid. cbn.
      split; [|reflexivity]. eexists. split; reflexivity.
    + intro Hnot. subst outcome.
      unfold CancelPayment, bind, call. rewrite Hfind.
      apply Z.eqb_neq in Hnot. rewrite Hnot. cbn [world trace].
      exists (Payment.set_UpdatedAt now
                (markForCallbackDelivery
                   (Payment.set_Status PaymentStatus_CANCELED payment) now)).
      split; [|split; reflexivity].
      destruct (paymentRepository.Update _ _ w1) as [[err|] w2].
      * destruct (errors_Is err repository_ErrPaymentNotFound); reflexivity.
      * unfold ret. destruct (paymentEventRepository.Create _ _ _). reflexivity.
  - intros req st code client parsedEvent loaded w1 w2 Hparse Hget Hverify Hfind.
    exists (applyParsedEvent loaded parsedEvent now).
    destruct (applyParsedEvent_spec loaded parsedEvent now) as (Hst & _ & _ & _ & Hid).
    split; [|split; assumption].
    destruct (paymentRepository.Update (PaymentService.paymentRepo s)
                (applyParsedEvent loaded parsedEvent now) w2) as [answer w3] eqn:Hupd.
    pose proof (@HandleProviderCallback_processed W s now req st code client Hparse Hget
                  parsedEvent loaded w1 w2 Hverify Hfind answer w3 Hupd) as Hrun.
    destruct answer as [err|].
    + rewrite Hrun. reflexivity.
    + cbv zeta in Hrun.
      match type of Hrun with
      | forall ignored w4, paymentEventRepository.Create ?r ?e ?w = _ -> _ =>
          destruct (paymentEventRepository.Create r e w) as [ignored w4] eqn:Hev;
          specialize (Hrun ignored w4 eq_refl)
      end.
      match type of Hrun with
      | forall callbackErr w5, paymentCallbackRepository.Create ?r ?c ?w = _ -> _ =>
          destruct (paymentCallbackRepository.Create r c w) as [callbackErr w5] eqn:Hrow;
          specialize (Hrun callbackErr w5 eq_refl)
      end.
      rewrite Hrun. reflexivity.
Qed.

(* ===================================================================== *)
(** * The theorems at the inputs of the unit tests *)
(* ===================================================================== *)

(** C10 on the tags " Stripe " (resolved) and "paypal" (refused before any
    call). *)
Lemma C10_provider_tag_resolution_witness :
  let s :=
    newPaymentServiceForTest (providerWithEvent "checkout.session.completed" PaymentStatus_PAID)
      (callbackServer 200) in
  let st := {| world := worldWith (testPayment PaymentStatus_PENDING 0); trace := [] |} in
  (ToLower (PaymentService.runtime s) (strings.TrimSpace " Stripe ") = "stripe"
   /\ parseProviderCode (PaymentService.runtime s) " Stripe " = Ok ProviderType_STRIPE)
  /\ (ToLower (PaymentService.runtime s) (strings.TrimSpace "paypal") <> "stripe"
      /\ ToLower (PaymentService.runtime s) (strings.TrimSpace "paypal") <> "1"
      /\ HandleProviderCallback s 100 (testCallbackRequest "paypal") st
         = (Err ErrProviderUnsupported, st)).
Proof.
  intros s st.
  destruct (C10_provider_tag_resolution s 100 (testCallbackRequest " Stripe ") st)
    as (_ & _ & Hresolved & _).
  destruct (C10_provider_tag_resolution s 100 (testCallbackRequest "paypal") st)
    as (_ & _ & _ & Hrefused).
  split.
  - split; [reflexivity|]. apply Hresolved. left. reflexivity.
  - assert (H1 : ToLower (PaymentService.runtime s) (strings.TrimSpace "paypal") <> "stripe")
      by (vm_compute; discriminate).
    assert (H2 : ToLower (PaymentService.runtime s) (strings.TrimSpace "paypal") <> "1")
      by (vm_compute; discriminate).
    split; [exact H1|]. split; [exact H2|].
    exact (proj2 (Hrefused H1 H2)).
Defined.

(** C7 on a payment without caller endpoint. *)
Lemma C7_empty_callback_url_witness :
  let s := newPaymentServiceForTest serviceProvider.zero (callbackServer 200) in
  let payment := testPaymentWith "" PaymentStatus_PAID 0 in
  let st := {| world := worldWith payment; trace := [] |} in
  strings.TrimSpace (Payment.StatusCallbackURL payment) = ""
  /\ exists updated : Payment.t,
      Payment.CallbackDeliveryStatus updated = CallbackDeliveryFailed
      /\ Payment.CallbackDeliveryLastErr updated = Some "status_callback_url is empty"
      /\ trace (snd (dispatchCallback s payment 100 st)) = [PaymentUpdate updated].
Proof.
  intros s payment st.
  assert (Hurl : strings.TrimSpace (Payment.StatusCallbackURL payment) = "") by reflexivity.
  split; [exact Hurl|].
  destruct (C7_empty_callback_url_is_terminal_failure s payment 100 st Hurl)
    as (updated & H1 & _ & H3 & _ & _ & _ & _ & _ & _ & Htrace & _).
  exists updated. split; [exact H1|]. split; [exact H3|]. exact Htrace.
Defined.

(** C2 on the request of the idempotency test: replayed against a repository
    that already holds its payment, and sent twice to fresh repositories. *)
Lemma C2_create_payment_is_idempotent_witness :
  let s := newPaymentServiceForTest serviceProvider.zero (callbackServer 200) in
  let existing := testPayment PaymentStatus_PENDING 0 in
  let st := {| world := worldWith existing; trace := [] |} in
  let fresh := {| world := TestWorld.empty; trace := [] |} in
  ((strings.TrimSpace (CreatePaymentRequest.RequestId testCreateRequest) <> ""
    /\ strings.TrimSpace (CreatePaymentRequest.CallerService testCreateRequest) <> ""
    /\ paymentRepository.FindByCallerRequestID (PaymentService.paymentRepo s)
         "subscriptions-service" "req-1" (world st) = (Ok (Some existing), world st))
   /\ fst (CreatePayment s 100 "hash-2" testCreateRequest st) = Ok existing
   /\ trace (snd (CreatePayment s 100 "hash-2" testCreateRequest st))
      = [PaymentFindByCallerRequestID "subscriptions-service" "req-1"])
  /\ exists (payment : Payment.t) (st1 : State TestWorld.t),
      CreatePayment s 100 "hash-1" testCreateRequest fresh = (Ok payment, st1)
      /\ Payment.ID payment = 1
      /\ CreatePayment s 200 "hash-2" testCreateRequest st1
         = (Ok payment,
            {| world := world st1;
               trace := PaymentFindByCallerRequestID "subscriptions-service" "req-1"
                        :: trace st1 |}).
Proof.
  intros s existing st fresh.
  destruct C2_create_payment_is_idempotent as [Hshort Htwice].
  split.
  - assert (H1 : strings.TrimSpace (CreatePaymentRequest.RequestId testCreateRequest) <> "")
      by (vm_compute; discriminate).
    assert (H2 : strings.TrimSpace (CreatePaymentRequest.CallerService testCreateRequest) <> "")
      by (vm_compute; discriminate).
    assert (H3 : paymentRepository.FindByCallerRequestID (PaymentService.paymentRepo s)
                   (strings.TrimSpace (CreatePaymentRequest.CallerService testCreateRequest))
                   (strings.TrimSpace (CreatePaymentRequest.RequestId testCreateRequest))
                   (world st) = (Ok (Some existing), world st)) by reflexivity.
    split; [split; [exact H1 | split; [exact H2 | exact H3]]|].
    destruct (Hshort _ s 100 "hash-2" testCreateRequest st existing (world st) H1 H2 H3)
      as (Hres & _ & Htrace & _).
    split; [exact Hres | exact Htrace].
  - destruct (CreatePayment s 100 "hash-1" testCreateRequest fresh) as [r st1] eqn:Hfirst.
    assert (Hok : exists payment, r = Ok payment /\ Payment.ID payment = 1).
    { pose proof Hfirst as Hvalue. vm_compute in Hvalue.
      inversion Hvalue. eexists. split; reflexivity. }
    destruct Hok as (payment & -> & Hid).
    exists payment, st1. split; [reflexivity|]. split; [exact Hid|].
    exact (Htwice s 100 200 "hash-1" "hash-2" testCreateRequest testCreateRequest
             fresh st1 payment eq_refl eq_refl eq_refl eq_refl Hfirst).
Defined.

(** C5 on the cancellation of the pending payment of the tests. *)
Lemma C5_cancel_payment_witness :
  let s := newPaymentServiceForTest serviceProvider.zero (callbackServer 200) in
  let payment := testPayment PaymentStatus_PENDING 0 in
  let req := {| CancelPaymentRequest.Id := 1; CancelPaymentRequest.Reason := "duplicate" |} in
  let st := {| world := worldWith payment; trace := [] |} in
  paymentRepository.FindByID (PaymentService.paymentRepo s) 1 (world st)
  = (Ok (Some payment), world st)
  /\ exists updated : Payment.t,
      Payment.Status updated = PaymentStatus_CANCELED
      /\ armed updated 100
      /\ fst (CancelPayment s 100 req st) = Ok updated
      /\ eventRows (trace (snd (CancelPayment s 100 req st)))
         = [lifecycleEvent 1 "payment_canceled" (Some PaymentStatus_PENDING)
              PaymentStatus_CANCELED 100].
Proof.
  intros s payment req st.
  assert (Hfind : paymentRepository.FindByID (PaymentService.paymentRepo s)
                    (CancelPaymentRequest.Id req) (world st)
                  = (Ok (Some payment), world st)) by reflexivity.
  split; [exact Hfind|].
  pose proof (C5_cancel_payment s 100 req st Hfind) as H.
  cbv beta iota zeta in H.
  change (Payment.Status payment =? PaymentStatus_PAID) with false in H.
  cbv beta iota in H.
  destruct H as (updated & Hstatus & Harmed & _ & Hid & Hrun).
  exists updated. split; [exact Hstatus|]. split; [exact Harmed|].
  assert (Hupd : paymentRepository.Update (PaymentService.paymentRepo s) updated (world st)
                 = (None,
                    {| TestWorld.repo :=
                         {| servicePaymentRepo.payments := [(1, updated)];
                            servicePaymentRepo.nextID := 1 |};
                       TestWorld.events := [];
                       TestWorld.callbacks := [] |})).
  { cbn. unfold TestWorld.onRepo, servicePaymentRepo.Update. cbn.
    rewrite Hid. reflexivity. }
  specialize (Hrun _ _ Hupd). cbv beta iota zeta in Hrun.
  destruct (Hrun None _ eq_refl) as [Hdone _].
  rewrite Hdone. split; reflexivity.
Defined.

(** C6 on an endpoint answering 500 (first attempt out of three). *)
Lemma C6_failed_delivery_bookkeeping_witness :
  let s := newPaymentServiceForTest serviceProvider.zero (callbackServer 500) in
  let payment := testPayment PaymentStatus_FAILED 0 in
  let st := {| world := worldWith payment; trace := [] |} in
  let body := "payment:req-1" in
  let dispatchErr := Opaque "callback endpoint returned status=500" in
  (strings.TrimSpace (Payment.StatusCallbackURL payment) <> ""
   /\ GoRuntime.marshalEnvelope (PaymentService.runtime s) payment = Ok body
   /\ GoRuntime.newRequestError (PaymentService.runtime s) "POST"
        (Payment.StatusCallbackURL payment) = None
   /\ PaymentService.callbackHTTP s (callbackRequest s payment body) (world st)
      = (Ok 500, world st))
  /\ exists updated : Payment.t,
      Payment.CallbackDeliveryAttempts updated = 1
      /\ Payment.CallbackDeliveryLastErr updated = Some "callback endpoint returned status=500"
      /\ Payment.CallbackDeliveryStatus updated = CallbackDeliveryPending
      /\ Payment.CallbackDeliveryNextAt updated = Some (100 + time_Second)
      /\ fst (dispatchCallback s payment 100 st) = Some dispatchErr
      /\ eventRows (trace (snd (dispatchCallback s payment 100 st)))
         = [lifecycleEvent 1 "callback_dispatch_failed" None PaymentStatus_FAILED 100].
Proof.
  intros s payment st body dispatchErr.
  assert (H1 : strings.TrimSpace (Payment.StatusCallbackURL payment) <> "")
    by (vm_compute; discriminate).
  assert (H2 : GoRuntime.marshalEnvelope (PaymentService.runtime s) payment = Ok body)
    by reflexivity.
  assert (H3 : GoRuntime.newRequestError (PaymentService.runtime s) "POST"
                 (Payment.StatusCallbackURL payment) = None) by reflexivity.
  assert (H4 : PaymentService.callbackHTTP s (callbackRequest s payment body) (world st)
               = (Ok 500, world st)) by reflexivity.
  assert (H5 : Ok 500 = Err dispatchErr
               \/ exists statusCode : Z,
                   Ok 500 = Ok statusCode
                   /\ (statusCode < 200 \/ 300 <= statusCode)
                   /\ dispatchErr
                      = Opaque ("callback endpoint returned status=" ++ strings.Itoa statusCode)).
  { right. exists 500. split; [reflexivity|]. split; [right; lia | reflexivity]. }
  split; [repeat split; assumption|].
  destruct (C6_failed_delivery_bookkeeping s payment 100 st H1 H2 H3 H4 H5)
    as (updated & Hatt & _ & Herr & _ & _ & Hsched & Hid & _ & _ & Hrun).
  exists updated.
  split; [exact Hatt|]. split; [exact Herr|].
  rewrite Hatt in Hsched.
  split; [exact (proj1 Hsched)|]. split; [exact (proj2 Hsched)|].
  assert (Hupd : paymentRepository.Update (PaymentService.paymentRepo s) updated (world st)
                 = (None,
                    {| TestWorld.repo :=
                         {| servicePaymentRepo.payments := [(1, updated)];
                            servicePaymentRepo.nextID := 1 |};
                       TestWorld.events := [];
                       TestWorld.callbacks := [] |})).
  { cbn. unfold TestWorld.onRepo, servicePaymentRepo.Update. cbn.
    rewrite Hid. reflexivity. }
  rewrite (Hrun _ Hupd None _ eq_refl). split; reflexivity.
Defined.

(** C8 on the reconciliation test: the provider reports PAID for the pending
    payment. *)
Lemma C8_reconcile_item_witness :
  let s := newPaymentServiceForTest (providerWithReconcile PaymentStatus_PAID)
             (callbackServer 200) in
  let payment :=
    Payment.set_ProviderPaymentID (Some "cs_test_123") (testPayment PaymentStatus_PENDING 0) in
  let st := {| world := worldWith payment; trace := [] |} in
  (Payment.ProviderPaymentID payment = Some "cs_test_123"
   /\ strings.TrimSpace "cs_test_123" <> ""
   /\ Registry.Get (PaymentService.providerReg s) (Payment.Provider payment)
      = Ok (serviceProvider.asProvider (providerWithReconcile PaymentStatus_PAID))
   /\ Provider.GetPaymentStatus
        (serviceProvider.asProvider (providerWithReconcile PaymentStatus_PAID))
        (strings.TrimSpace "cs_test_123") (world st) = (Ok PaymentStatus_PAID, world st)
   /\ PaymentStatus_PAID <> 0
   /\ PaymentStatus_PAID <> Payment.Status payment)
  /\ exists updated : Payment.t,
      Payment.Status updated = PaymentStatus_PAID
      /\ armed updated 100
      /\ reconcileItem s 100 (Some payment) None st
         = (None,
            {| world :=
                 {| TestWorld.repo :=
                      {| servicePaymentRepo.payments := [(1, updated)];
                         servicePaymentRepo.nextID := 1 |};
                    TestWorld.events :=
                      [lifecycleEvent 1 "payment_reconciled" (Some PaymentStatus_PENDING)
                         PaymentStatus_PAID 100];
                    TestWorld.callbacks := [] |};
               trace :=
                 [EventCreate
                    (lifecycleEvent 1 "payment_reconciled" (Some PaymentStatus_PENDING)
                       PaymentStatus_PAID 100);
                  PaymentUpdate updated;
                  ProviderGetPaymentStatus ProviderType_STRIPE "cs_test_123"] |}).
Proof.
  intros s payment st.
  assert (H1 : Payment.ProviderPaymentID payment = Some "cs_test_123") by reflexivity.
  assert (H2 : strings.TrimSpace "cs_test_123" <> "") by (vm_compute; discriminate).
  assert (H3 : Registry.Get (PaymentService.providerReg s) (Payment.Provider payment)
               = Ok (serviceProvider.asProvider (providerWithReconcile PaymentStatus_PAID)))
    by reflexivity.
  assert (H4 : Provider.GetPaymentStatus
                 (serviceProvider.asProvider (providerWithReconcile PaymentStatus_PAID))
                 (strings.TrimSpace "cs_test_123") (world st)
               = (Ok PaymentStatus_PAID, world st)) by reflexivity.
  assert (H5 : PaymentStatus_PAID <> 0) by (vm_compute; discriminate).
  assert (H6 : PaymentStatus_PAID <> Payment.Status payment) by (vm_compute; discriminate).
  split; [repeat split; assumption|].
  destruct (C8_reconcile_item s 100 payment None st H1 H2 H3 H4) as [_ Hchange].
  destruct (Hchange H5 H6) as (updated & Hstatus & Harm & _ & Hid & Hrun).
  exists updated. split; [exact Hstatus|]. split; [exact Harm|].
  assert (Hupd : paymentRepository.Update (PaymentService.paymentRepo s) updated (world st)
                 = (None,
                    {| TestWorld.repo :=
                         {| servicePaymentRepo.payments := [(1, updated)];
                            servicePaymentRepo.nextID := 1 |};
                       TestWorld.events := [];
                       TestWorld.callbacks := [] |})).
  { cbn. unfold TestWorld.onRepo, servicePaymentRepo.Update. cbn.
    rewrite Hid. reflexivity. }
  exact (Hrun _ Hupd None _ eq_refl).
Defined.

(** C3 on the rejected-webhook scenario: the signature fails
    verification. *)
Lemma C3_one_callback_row_witness :
  let s := newPaymentServiceForTest (providerRejecting "invalid stripe signature")
             (callbackServer 200) in
  let req := testCallbackRequest "stripe" in
  let st := {| world := worldWith (testPayment PaymentStatus_PENDING 0); trace := [] |} in
  let providerClient := serviceProvider.asProvider (providerRejecting "invalid stripe signature") in
  (parseProviderCode (PaymentService.runtime s) (HandleProviderCallbackRequest.Provider req)
   = Ok ProviderType_STRIPE
   /\ Registry.Get (PaymentService.providerReg s) ProviderType_STRIPE = Ok providerClient
   /\ Provider.VerifyAndParseCallback providerClient
        (HandleProviderCallbackRequest.Payload req)
        (strings.TrimSpace (HandleProviderCallbackRequest.Signature req)) (world st)
      = (Err (Opaque "invalid stripe signature"), world st))
  /\ exists row : PaymentCallback.t,
      callbackRows (trace (snd (HandleProviderCallback s 100 req st))) = [row]
      /\ PaymentCallback.Status row = paymentCallbackStatusRejected
      /\ PaymentCallback.PaymentID row = None
      /\ fst (HandleProviderCallback s 100 req st) = Err ErrCallbackRejected.
Proof.
  intros s req st providerClient.
  assert (H1 : parseProviderCode (PaymentService.runtime s)
                 (HandleProviderCallbackRequest.Provider req) = Ok ProviderType_STRIPE)
    by reflexivity.
  assert (H2 : Registry.Get (PaymentService.providerReg s) ProviderType_STRIPE
               = Ok providerClient) by reflexivity.
  assert (H3 : Provider.VerifyAndParseCallback providerClient
                 (HandleProviderCallbackRequest.Payload req)
                 (strings.TrimSpace (HandleProviderCallbackRequest.Signature req)) (world st)
               = (Err (Opaque "invalid stripe signature"), world st)) by reflexivity.
  split; [repeat split; assumption|].
  destruct (C3_one_callback_row_when_provider_resolves s 100 req st H1 H2 H3)
    as (row & Hrows & (Hstatus & Hpid & _ & _) & Hres).
  exists row. repeat split; assumption.
Defined.

(** C4 on the webhook test: the pending payment of the tests is paid by the
    provider event and its delivery is armed. *)
Lemma C4_terminal_transitions_arm_delivery_witness :
  let s :=
    newPaymentServiceForTest (providerWithEvent "checkout.session.completed" PaymentStatus_PAID)
      (callbackServer 200) in
  let req := testCallbackRequest "stripe" in
  let loaded := testPayment PaymentStatus_PENDING 0 in
  let st := {| world := worldWith loaded; trace := [] |} in
  let providerClient :=
    serviceProvider.asProvider
      (providerWithEvent "checkout.session.completed" PaymentStatus_PAID) in
  let parsedEvent :=
    {| CallbackEvent.ProviderEventID := None;
       CallbackEvent.ProviderPaymentID := None;
       CallbackEvent.ProviderSubscriptionID := None;
       CallbackEvent.EventType := "checkout.session.completed";
       CallbackEvent.NewStatus := PaymentStatus_PAID |} in
  (parseProviderCode (PaymentService.runtime s) (HandleProviderCallbackRequest.Provider req)
   = Ok ProviderType_STRIPE
   /\ Registry.Get (PaymentService.providerReg s) ProviderType_STRIPE = Ok providerClient
   /\ Provider.VerifyAndParseCallback providerClient
        (HandleProviderCallbackRequest.Payload req)
        (strings.TrimSpace (HandleProviderCallbackRequest.Signature req)) (world st)
      = (Ok (Some parsedEvent), world st)
   /\ paymentRepository.FindByCallbackHash (PaymentService.paymentRepo s) ProviderType_STRIPE
        (strings.TrimSpace (HandleProviderCallbackRequest.CallbackHash req)) (world st)
      = (Ok (Some loaded), world st))
  /\ exists payment : Payment.t,
      paymentWrites (trace (snd (HandleProviderCallback s 100 req st))) = [payment]
      /\ Payment.Status payment = PaymentStatus_PAID
      /\ armed payment 100.
Proof.
  intros s req loaded st providerClient parsedEvent.
  assert (H1 : parseProviderCode (PaymentService.runtime s)
                 (HandleProviderCallbackRequest.Provider req) = Ok ProviderType_STRIPE)
    by reflexivity.
  assert (H2 : Registry.Get (PaymentService.providerReg s) ProviderType_STRIPE
               = Ok providerClient) by reflexivity.
  assert (H3 : Provider.VerifyAndParseCallback providerClient
                 (HandleProviderCallbackRequest.Payload req)
                 (strings.TrimSpace (HandleProviderCallbackRequest.Signature req)) (world st)
               = (Ok (Some parsedEvent), world st)) by reflexivity.
  assert (H4 : paymentRepository.FindByCallbackHash (PaymentService.paymentRepo s)
                 ProviderType_STRIPE
                 (strings.TrimSpace (HandleProviderCallbackRequest.CallbackHash req)) (world st)
               = (Ok (Some loaded), world st)) by reflexivity.
  split; [repeat split; assumption|].
  destruct (C4_terminal_transitions_arm_delivery s 100) as (_ & _ & _ & _ & Hcallback).
  destruct (Hcallback req st _ _ _ _ _ _ H1 H2 H3 H4) as (payment & Hwrites & _ & Harm).
  exists payment. split; [exact Hwrites|].
  assert (Hstatus : Payment.Status payment = PaymentStatus_PAID).
  { revert Hwrites. vm_compute. intro Hwrites. inversion Hwrites. reflexivity. }
  split; [exact Hstatus|].
  apply Harm; rewrite Hstatus; [vm_compute; discriminate | reflexivity].
Defined.

(** C9 on the webhook test, replayed at time 200 after a first
    application at time 100. *)
Lemma C9_replayed_event_witness :
  let s :=
    newPaymentServiceForTest (providerWithEvent "checkout.session.completed" PaymentStatus_PAID)
      (callbackServer 200) in
  let req := testCallbackRequest "stripe" in
  let parsedEvent :=
    {| CallbackEvent.ProviderEventID := None;
       CallbackEvent.ProviderPaymentID := None;
       CallbackEvent.ProviderSubscriptionID := None;
       CallbackEvent.EventType := "checkout.session.completed";
       CallbackEvent.NewStatus := PaymentStatus_PAID |} in
  let first := applyParsedEvent (testPayment PaymentStatus_PENDING 0) parsedEvent 100 in
  let second := Payment.set_UpdatedAt 200 first in
  let st := {| world := worldWith first; trace := [] |} in
  fst (HandleProviderCallback s 200 req st) = Ok second
  /\ stored (world (snd (HandleProviderCallback s 200 req st))) 1 = Some second
  /\ sameDelivery first second
  /\ List.length (callbackRows (trace (snd (HandleProviderCallback s 200 req st)))) = 1%nat.
Proof.
  intros s req parsedEvent first second st.
  set (providerClient :=
         serviceProvider.asProvider
           (providerWithEvent "checkout.session.completed" PaymentStatus_PAID)).
  set (event := providerCallbackEvent second (Payment.Status first) parsedEvent
                  (HandleProviderCallbackRequest.Payload req) 200).
  set (row := processedCallbackRow (PaymentService.runtime s) 200 second req).
  set (r3 := {| servicePaymentRepo.payments := [(1, second)];
                servicePaymentRepo.nextID := 1 |}).
  set (w3 := {| TestWorld.repo := r3; TestWorld.events := []; TestWorld.callbacks := [] |}).
  set (w4 := {| TestWorld.repo := r3; TestWorld.events := [event];
                TestWorld.callbacks := [] |}).
  set (w5 := {| TestWorld.repo := r3; TestWorld.events := [event];
                TestWorld.callbacks := [row] |}).
  assert (H1 : parseProviderCode (PaymentService.runtime s)
                 (HandleProviderCallbackRequest.Provider req) = Ok ProviderType_STRIPE)
    by reflexivity.
  assert (H2 : Registry.Get (PaymentService.providerReg s) ProviderType_STRIPE
               = Ok providerClient) by reflexivity.
  assert (H3 : Provider.VerifyAndParseCallback providerClient
                 (HandleProviderCallbackRequest.Payload req)
                 (strings.TrimSpace (HandleProviderCallbackRequest.Signature req)) (world st)
               = (Ok (Some parsedEvent), world st)) by reflexivity.
  assert (H4 : paymentRepository.FindByCallbackHash (PaymentService.paymentRepo s)
                 ProviderType_STRIPE
                 (strings.TrimSpace (HandleProviderCallbackRequest.CallbackHash req)) (world st)
               = (Ok (Some first), world st)) by (vm_compute; reflexivity).
  assert (H5 : paymentRepository.Update (PaymentService.paymentRepo s) second (world st)
               = (None, w3)) by (vm_compute; reflexivity).
  assert (H6 : paymentEventRepository.Create (PaymentService.eventRepo s) event w3
               = (None, w4)) by reflexivity.
  assert (H7 : paymentCallbackRepository.Create (PaymentService.callbackRepo s) row w4
               = (None, w5)) by reflexivity.
  destruct (@C9_replayed_event_only_bumps_updated_at TestWorld.t s 100 200 req st
              ProviderType_STRIPE providerClient parsedEvent
              (testPayment PaymentStatus_PENDING 0)
              (world st) (world st) w3 w4 w5 None H1 H2 H3 H4 H5 H6 H7)
    as (Hrun & _ & Hsame & _).
  rewrite Hrun. repeat split; apply Hsame.
Defined.

(** C1 on a PAID payment (cancellation refused) and on the replay
    of a PAID event for a CANCELED payment (status overwritten). *)
Lemma C1_only_paid_is_protected_witness :
  let s :=
    newPaymentServiceForTest (providerWithEvent "checkout.session.completed" PaymentStatus_PAID)
      (callbackServer 200) in
  let paid := testPayment PaymentStatus_PAID 0 in
  let canceled := testPayment PaymentStatus_CANCELED 0 in
  let cancel := {| CancelPaymentRequest.Id := 1; CancelPaymentRequest.Reason := "duplicate" |} in
  let req := testCallbackRequest "stripe" in
  (paymentRepository.FindByID (PaymentService.paymentRepo s) 1 (worldWith paid)
   = (Ok (Some paid), worldWith paid)
   /\ paymentWrites
        (trace (snd (CancelPayment s 100 cancel {| world := worldWith paid; trace := [] |})))
      = [])
  /\ (paymentRepository.FindByCallbackHash (PaymentService.paymentRepo s) ProviderType_STRIPE
        "hash-1" (worldWith canceled) = (Ok (Some canceled), worldWith canceled)
      /\ exists payment : Payment.t,
          paymentWrites
            (trace (snd (HandleProviderCallback s 100 req
                           {| world := worldWith canceled; trace := [] |})))
          = [payment]
          /\ Payment.Status payment = PaymentStatus_PAID).
Proof.
  intros s paid canceled cancel req.
  destruct (C1_only_paid_is_protected_from_cancel s 100) as [Hcancel Hcallback].
  split.
  - assert (Hfind : paymentRepository.FindByID (PaymentService.paymentRepo s)
                      (CancelPaymentRequest.Id cancel)
                      (world {| world := worldWith paid; trace := [] |})
                    = (Ok (Some paid), worldWith paid)) by reflexivity.
    split; [exact Hfind|].
    destruct (Hcancel cancel _ _ _ Hfind) as [Hpaid _].
    exact (proj2 (Hpaid eq_refl)).
  - assert (Hfind : paymentRepository.FindByCallbackHash (PaymentService.paymentRepo s)
                      ProviderType_STRIPE
                      (strings.TrimSpace (HandleProviderCallbackRequest.CallbackHash req))
                      (worldWith canceled)
                    = (Ok (Some canceled), worldWith canceled)) by reflexivity.
    split; [exact Hfind|].
    destruct (Hcallback req {| world := worldWith canceled; trace := [] |}
                ProviderType_STRIPE
                (serviceProvider.asProvider
                   (providerWithEvent "checkout.session.completed" PaymentStatus_PAID))
                _ canceled (worldWith canceled) (worldWith canceled)
                eq_refl eq_refl eq_refl Hfind)
      as (payment & Hwrites & _ & Hstatus).
    exists payment. split; [exact Hwrites | exact Hstatus].
Defined.
